(** * HabiTech: the California NO2 report pipeline of [main.py]

    A shallow embedding of [fetch_california_data], of the route that
    serves its report and of [preprocess_omi_l3], with the pieces of the
    Python runtime they rely on (binary64 comparison and [.2e] formatting,
    [print] on the standard output, [glob] matching, [numpy.linspace],
    [try]/[except Exception]), followed by the properties of the report
    that is returned. *)

From Stdlib Require Import ZArith QArith Qabs Qpower Qfield Qround.
From Stdlib Require Import List String Ascii Bool Lia Lqa.
From Stdlib Require Import Numbers.DecimalString Floats.SpecFloat.
Import ListNotations.

Local Open Scope string_scope.

(* ===================================================================== *)
(** ** Python floats *)
(* ===================================================================== *)

Module PyFloat.

(** A Python [float] is an IEEE-754 binary64 datum: a NaN, a signed
    infinity, a signed zero, or [(-1)^s * m * 2^e]. *)
Definition float : Type := spec_float.

Definition is_finite (x : float) : bool :=
  match x with
  | S754_zero _ | S754_finite _ _ _ => true
  | S754_infinity _ | S754_nan => false
  end.

Definition is_nan (x : float) : bool :=
  match x with S754_nan => true | _ => false end.

(** The rational number a finite float denotes (0 for the others). *)
Definition float_value (x : float) : Q :=
  match x with
  | S754_finite s m e =>
      (if s then -1 else 1) * inject_Z (Z.pos m) * 2 ^ e
  | _ => 0
  end%Q.

Inductive xreal : Type :=
| XNaN
| XNegInf
| XFin (q : Q)
| XPosInf.

Definition to_xreal (x : float) : xreal :=
  match x with
  | S754_nan => XNaN
  | S754_infinity s => if s then XNegInf else XPosInf
  | _ => XFin (float_value x)
  end.

(** Python's [a >= b] on floats: the order of the extended reals, and
    [False] as soon as one side is a NaN. *)
Definition float_ge (a b : float) : bool :=
  match to_xreal a, to_xreal b with
  | XNaN, _ | _, XNaN => false
  | XPosInf, _ => true
  | _, XNegInf => true
  | XNegInf, _ => false
  | _, XPosInf => false
  | XFin p, XFin q => Qle_bool q p
  end.

(** *** [format(x, ".2e")] *)

(** Brings [num/den] into [[1, 10)] by powers of ten; [k] counts them. *)
Fixpoint scale (fuel : nat) (num den k : Z) : Z * Z * Z :=
  match fuel with
  | O => (num, den, k)
  | S fuel' =>
      if (num <? den)%Z then scale fuel' (10 * num)%Z den (k - 1)%Z
      else if (10 * den <=? num)%Z then scale fuel' num (10 * den)%Z (k + 1)%Z
      else (num, den, k)
  end.

Definition scale_fuel (num den : Z) : nat :=
  S (Z.to_nat (Z.log2 num + Z.log2 den)).

(** [n/d] rounded to the nearest integer, ties to the even one. *)
Definition round_half_even (n d : Z) : Z :=
  let a := (n / d)%Z in
  let r := (n mod d)%Z in
  if ((d <? 2 * r) || ((d =? 2 * r) && Z.odd a))%Z then (a + 1)%Z else a.

Definition digit (n : Z) : ascii := ascii_of_nat (48 + Z.to_nat n).

(** The exponent is printed with at least two digits. *)
Definition exp_digits (k : Z) : string :=
  let s := NilZero.string_of_uint (N.to_uint (Z.to_N (Z.abs k))) in
  if (String.length s <? 2)%nat then "0" ++ s else s.

Definition format_mantissa_exp (q k : Z) : string :=
  String (digit (q / 100))
    (String "."
       (String (digit ((q / 10) mod 10))
          (String (digit (q mod 10))
             (String "e"
                ((if (k <? 0)%Z then "-" else "+") ++ exp_digits k))))).

(** The three significant digits [q] and the decimal exponent [k] of the
    positive rational [num/den]: [q * 10^(k-2)] is [num/den] correctly
    rounded. *)
Definition digits_pos (num den : Z) : Z * Z :=
  let '(n, d, k) := scale (scale_fuel num den) num den 0 in
  let q := round_half_even (100 * n) d in
  if (1000 <=? q)%Z then (100, k + 1)%Z else (q, k).

Definition format_pos (num den : Z) : string :=
  let '(q, k) := digits_pos num den in format_mantissa_exp q k.

Definition format_2e (x : float) : string :=
  match x with
  | S754_nan => "nan"
  | S754_infinity s => if s then "-inf" else "inf"
  | S754_zero s => (if s then "-" else "") ++ "0.00e+00"
  | S754_finite s m e =>
      (if s then "-" else "")
        ++ format_pos (Z.pos m * 2 ^ Z.max e 0) (2 ^ Z.max (- e) 0)
  end.

(** Recognises [-?d.dde[+-]dd+]. *)
Definition is_digit (c : ascii) : bool :=
  ((48 <=? nat_of_ascii c) && (nat_of_ascii c <=? 57))%nat.

Fixpoint all_digits (s : string) : bool :=
  match s with
  | EmptyString => true
  | String c s' => is_digit c && all_digits s'
  end.

Definition is_sci2_unsigned (s : string) : bool :=
  match s with
  | String d1 s1 =>
      is_digit d1
      && match s1 with
         | String dot (String d2 (String d3 (String e (String sg ex)))) =>
             Ascii.eqb dot "." && is_digit d2 && is_digit d3
             && Ascii.eqb e "e"
             && (Ascii.eqb sg "+" || Ascii.eqb sg "-")
             && (2 <=? String.length ex)%nat && all_digits ex
         | _ => false
         end
  | EmptyString => false
  end.

Definition is_sci2 (s : string) : bool :=
  match s with
  | String c s' =>
      if Ascii.eqb c "-" then is_sci2_unsigned s' else is_sci2_unsigned s
  | EmptyString => false
  end.

(** [q * 10^(k-2)] is [x] to within half a unit of the last digit of [q]. *)
Definition within_half_unit (x : Q) (q k : Z) : Prop :=
  (inject_Z (2 * q - 1) * 10 ^ (k - 2) <= 2 * x
   /\ 2 * x <= inject_Z (2 * q + 1) * 10 ^ (k - 2))%Q.

End PyFloat.

Import PyFloat.

(** Line 15: [HIGH_RISK_THRESHOLD = 1.6e-9], the binary64 number nearest to
    the decimal, [0x1.b7cdfd9d7bdbbp-30]. *)
Definition HIGH_RISK_THRESHOLD : float :=
  S754_finite false 7737125245533627 (-82).


(* ===================================================================== *)
(** ** Exceptions, values and the outside world *)
(* ===================================================================== *)

(** A raised object: its class name, whether that class derives from
    [Exception] (as opposed to deriving from [BaseException] only, like
    [KeyboardInterrupt] and [SystemExit]), and [str(e)]. *)
Record exc : Type := Exc {
  exc_class : string;
  exc_is_Exception : bool;
  exc_str : string
}.

Definition FileNotFoundError (msg : string) : exc :=
  {| exc_class := "FileNotFoundError"; exc_is_Exception := true;
     exc_str := msg |}.

Inductive outcome (A : Type) : Type :=
| Return (a : A)
| Raise (e : exc).
Arguments Return {A} a.
Arguments Raise {A} e.

(** The Python values a report is made of; a [dict] keeps its keys in
    insertion order. *)
#[warnings="-register-all"]
Inductive pyval : Type :=
| PStr (s : string)
| PBool (b : bool)
| PList (l : list pyval)
| PDict (d : list (string * pyval)).

Definition report : Type := list (string * pyval).

Fixpoint dict_get (d : list (string * pyval)) (key : string) : option pyval :=
  match d with
  | [] => None
  | (k, v) :: d' => if String.eqb k key then Some v else dict_get d' key
  end.

Definition dict_has (d : list (string * pyval)) (key : string) : bool :=
  match dict_get d key with Some _ => true | None => false end.

(** [str(n)] for a non-negative [int]. *)
Definition str_of_nat (n : nat) : string :=
  NilZero.string_of_uint (Nat.to_uint n).

(** A character below 128, and a text made of such characters: what every
    encoding of a terminal or of a log file can write. *)
Definition is_ascii_char (c : ascii) : bool :=
  match c with Ascii _ _ _ _ _ _ _ b7 => negb b7 end.

Fixpoint is_ascii (s : string) : bool :=
  match s with
  | EmptyString => true
  | String c s' => is_ascii_char c && is_ascii s'
  end.

(** *** [glob] *)

(** [fnmatch.fnmatch] on a POSIX system (where it does not fold case), for
    the patterns this program has: literal characters, [*] and [?].  A
    bracket in a pattern opens a character class in Python; the two
    patterns of lines 55 and 58 have none, and the function below is not
    meant for a pattern that has one. *)
Fixpoint fnmatch (pat name : string) : bool :=
  match pat with
  | EmptyString =>
      match name with EmptyString => true | _ => false end
  | String "*" pat' =>
      (fix star (n : string) : bool :=
         fnmatch pat' n
         || match n with
            | EmptyString => false
            | String _ n' => star n'
            end) name
  | String "?" pat' =>
      match name with
      | EmptyString => false
      | String _ n' => fnmatch pat' n'
      end
  | String c pat' =>
      match name with
      | EmptyString => false
      | String d n' => Ascii.eqb c d && fnmatch pat' n'
      end
  end.

Fixpoint strip_prefix (p s : string) : option string :=
  match p with
  | EmptyString => Some s
  | String c p' =>
      match s with
      | EmptyString => None
      | String d s' => if Ascii.eqb c d then strip_prefix p' s' else None
      end
  end.

Definition cache_dir : string := "tempo_data".

(** A name that begins with a dot. *)
Definition is_hidden (name : string) : bool :=
  match name with
  | String "." _ => true
  | _ => false
  end.

(** [glob.glob(pattern)] when the only directory that matters is
    [tempo_data], whose entries are [names]: the entries that match the
    last component of the pattern, with the directory put back in front.
    Unless that component begins with a dot itself, the entries that begin
    with a dot are left out before the matching. *)
Definition glob_in (names : list string) (pattern : string) : list string :=
  match strip_prefix (cache_dir ++ "/") pattern with
  | Some base =>
      let visible :=
        if is_hidden base then names
        else filter (fun n => negb (is_hidden n)) names in
      map (fun n => cache_dir ++ "/" ++ n) (filter (fnmatch base) visible)
  | None => []
  end.

(** *** [numpy.linspace] *)

(** [np.linspace(start, stop, num)] in exact arithmetic: [i * step + start]
    with [step = (stop - start) / (num - 1)], and the last sample set to
    [stop].  The library computes in binary64, and in general rounds; on
    the two calls of lines 107-108 it does not, and [np_linspace] below,
    which follows the library in binary64, gives the very rationals
    computed here ([lat_in_binary64], [lon_in_binary64]). *)
Definition linspace (start stop : Q) (num : nat) : list Q :=
  let div := (num - 1)%nat in
  let step := ((stop - start) / inject_Z (Z.of_nat div))%Q in
  let y := map (fun i => (inject_Z (Z.of_nat i) * step + start)%Q)
               (seq 0 num) in
  if (1 <? num)%nat then (firstn (num - 1) y ++ [stop])%list else y.

(** *** The world *)

(** A dataset lives in the array library; the program only holds a
    reference to it. *)
Inductive Dataset : Type := DatasetRef (id : nat).

Definition bbox : Type := (Q * Q * Q * Q)%type.

(** What the collaborators answer.  Each answer is a value or a raised
    exception. *)
Record World : Type := {
  (* earthaccess.login(strategy=...) *)
  w_login : string -> outcome unit;
  (* earthaccess.search_data(short_name, temporal, bounding_box) *)
  w_search : string -> string * string -> bbox -> outcome (list string);
  (* the entries of tempo_data/ before the call *)
  w_cache : list string;
  (* earthaccess.download(granules, dir), from the entries of the
     directory to its answer and the entries afterwards *)
  w_download : list string -> list string -> outcome unit * list string;
  (* xr.open_mfdataset(files, ..., preprocess, concat_dim="time") *)
  w_open_mfdataset : list string -> outcome Dataset;
  (* ds.assign_coords(lat=, lon=) *)
  w_assign_coords : Dataset -> list Q -> list Q -> outcome Dataset;
  (* ds.sel(lon=slice(,), lat=slice(,)) *)
  w_sel : Dataset -> Q * Q -> Q * Q -> outcome Dataset;
  (* ds[var].mean(dim=[...]).compute().item() *)
  w_mean : Dataset -> string -> list string -> outcome float;
  (* time.strftime(fmt) *)
  w_strftime : string -> string;
  (* sys.stdout is closed when the request comes in *)
  w_stdout_closed : bool;
  (* what the encoder of sys.stdout answers on a line that has a
     character outside ASCII *)
  w_stdout_encode : string -> outcome unit
}.

(** What the program does to the world, most recent first. *)
Inductive event : Type :=
| EvLogin (strategy : string)
| EvSearch (short_name : string) (temporal : string * string) (box : bbox)
| EvGlob (pattern : string)
| EvDownload (granules : list string) (dir : string)
| EvOpen (files : list string)
| EvAssignCoords (ds : Dataset) (lat lon : list Q)
| EvSel (ds : Dataset) (lon lat : Q * Q)
| EvMean (ds : Dataset) (var : string) (dims : list string)
| EvPrint (line : string)
| EvRaise (e : exc).

Record state : Type := {
  st_cache : list string;
  st_log : list event
}.

Definition init_state (w : World) : state :=
  {| st_cache := w_cache w; st_log := [] |}.

(** *** A reader, state and exception monad *)

Definition M (A : Type) : Type := World -> state -> outcome A * state.

Definition ret {A} (a : A) : M A := fun _ st => (Return a, st).

Definition bind {A B} (m : M A) (f : A -> M B) : M B :=
  fun w st =>
    match m w st with
    | (Return a, st') => f a w st'
    | (Raise e, st') => (Raise e, st')
    end.

Declare Scope py_scope.
Delimit Scope py_scope with py.
Notation "x <- m ;; k" := (bind m (fun x => k))
  (at level 61, m at next level, right associativity) : py_scope.
Notation "m ;;; k" := (bind m (fun _ => k))
  (at level 61, right associativity) : py_scope.

Definition log (ev : event) (st : state) : state :=
  {| st_cache := st_cache st; st_log := ev :: st_log st |}.

(** [raise e] *)
Definition raise {A} (e : exc) : M A :=
  fun _ st => (Raise e, log (EvRaise e) st).

(** A call answered by the world. *)
Definition extern {A} (ev : event) (answer : World -> outcome A) : M A :=
  fun w st =>
    match answer w with
    | Return a => (Return a, log ev st)
    | Raise e => (Raise e, log (EvRaise e) (log ev st))
    end.

(** [try: body except Exception as e: handler(e)] *)
Definition try_except_Exception {A} (body : M A) (handler : exc -> M A) : M A :=
  fun w st =>
    match body w st with
    | (Return a, st') => (Return a, st')
    | (Raise e, st') =>
        if exc_is_Exception e then handler e w st' else (Raise e, st')
    end.

(** What [print] raises on a closed stream. *)
Definition closed_file_error : exc :=
  {| exc_class := "ValueError"; exc_is_Exception := true;
     exc_str := "I/O operation on closed file." |}.

(** What [sys.stdout] answers when [line] is written to it.  A closed
    stream raises [ValueError]; an open one takes every ASCII line, and asks
    its encoder for the others ([UnicodeEncodeError] when the encoding has
    no code for a character).  The program never closes or replaces the
    stream, so it is in one state for the whole request; the device behind
    it is taken not to fail. *)
Definition stdout_answer (w : World) (line : string) : outcome unit :=
  if w_stdout_closed w then Raise closed_file_error
  else if is_ascii line then Return tt
  else w_stdout_encode w line.

(** [print(line)] *)
Definition print (line : string) : M unit :=
  fun w st =>
    match stdout_answer w line with
    | Return _ => (Return tt, log (EvPrint line) st)
    | Raise e => (Raise e, log (EvRaise e) st)
    end.

Definition glob (pattern : string) : M (list string) :=
  fun _ st => (Return (glob_in (st_cache st) pattern), log (EvGlob pattern) st).

Definition earthaccess_login (strategy : string) : M unit :=
  extern (EvLogin strategy) (fun w => w_login w strategy).

Definition earthaccess_search_data (short_name : string)
    (temporal : string * string) (bounding_box : bbox) : M (list string) :=
  extern (EvSearch short_name temporal bounding_box)
         (fun w => w_search w short_name temporal bounding_box).

Definition earthaccess_download (granules : list string) (dir : string)
  : M unit :=
  fun w st =>
    let '(o, names) := w_download w granules (st_cache st) in
    let st' := {| st_cache := names;
                  st_log := EvDownload granules dir :: st_log st |} in
    match o with
    | Return a => (Return a, st')
    | Raise e => (Raise e, log (EvRaise e) st')
    end.

(** [xr.open_mfdataset(files, ...)] of lines 95-104; the library runs
    [preprocess_omi_l3] of lines 77-91 on each file inside the call. *)
Definition xr_open_mfdataset (files : list string) : M Dataset :=
  extern (EvOpen files) (fun w => w_open_mfdataset w files).

Definition assign_coords (ds : Dataset) (lat lon : list Q) : M Dataset :=
  extern (EvAssignCoords ds lat lon) (fun w => w_assign_coords w ds lat lon).

Definition sel (ds : Dataset) (lon lat : Q * Q) : M Dataset :=
  extern (EvSel ds lon lat) (fun w => w_sel w ds lon lat).

Definition mean_item (ds : Dataset) (var : string) (dims : list string)
  : M float :=
  extern (EvMean ds var dims) (fun w => w_mean w ds var dims).

Definition time_strftime (fmt : string) : M string :=
  fun w st => (Return (w_strftime w fmt), st).

Definition is_empty {A} (l : list A) : bool :=
  match l with [] => true | _ => false end.

(* ===================================================================== *)
(** ** [fetch_california_data] *)
(* ===================================================================== *)

Local Open Scope py_scope.

(** Lines 35-40.  The program only hands the bounds to the library, so
    they are kept as the decimals it writes. *)
Definition lon_min : Q := -124.48.
Definition lat_min : Q := 32.53.
Definition lon_max : Q := -114.13.
Definition lat_max : Q := 42.01.
Definition BBOX : bbox := (lon_min, lat_min, lon_max, lat_max).
Definition START_DATE : string := "2025-09-01".
Definition END_DATE : string := "2025-10-01".

(** Lines 107-108: the OMI L3 global grid. *)
Definition lat : list Q := linspace (-89.875) 89.875 720.
Definition lon : list Q := linspace (-179.875) 179.875 1440.

(** Lines 34-70: log in, query, fetch the files unless the directory
    already has some, and list them. *)
Definition acquire : M (list string) :=
  earthaccess_login "environment" ;;;
  search_results <- earthaccess_search_data "OMNO2d" (START_DATE, END_DATE) BBOX ;;
  print (str_of_nat (List.length search_results)) ;;;
  files <- glob "tempo_data/OMI-Aura_L3.*he5" ;;
  (if is_empty files
   then earthaccess_download search_results "tempo_data"
   else ret tt) ;;;
  files <- glob "tempo_data/OMI-Aura_L3*.he5" ;;
  print (str_of_nat (List.length files)) ;;;
  (if is_empty files
   then raise (FileNotFoundError
     "Earthaccess ran, but no files were downloaded for the given query.")
   else ret tt) ;;;
  ret files.

(** Lines 74-125: open the files as one dataset, put the grid on it, cut
    the region out and average. *)
Definition reduce (files : list string) : M float :=
  print ("Processing " ++ str_of_nat (List.length files)
           ++ " downloaded HE5 files...") ;;;
  ds_combined <- xr_open_mfdataset files ;;
  ds_combined <- assign_coords ds_combined lat lon ;;
  ca_data <- sel ds_combined (lon_min, lon_max) (lat_min, lat_max) ;;
  mean_item ca_data "ColumnAmountNO2Trop" ["lat"; "lon"; "time"].

(** Lines 133-140: [(risk_level, risk_color_hex, risk_interpretation)]. *)
Definition classify (overall_mean_no2 : float) (formatted_no2 : string)
  : string * string * string :=
  if float_ge overall_mean_no2 HIGH_RISK_THRESHOLD
  then ("HIGH RISK", "#DC2626",
        "HIGH RISK: Concentration (" ++ formatted_no2
        ++ ") exceeds the threshold (" ++ format_2e HIGH_RISK_THRESHOLD
        ++ "), suggesting severe air quality stress from pollution.")
  else ("LOW/MODERATE RISK", "#059669",
        "LOW/MODERATE RISK: Concentration (" ++ formatted_no2
        ++ ") is below the threshold, suggesting acceptable air quality for the period.").

Definition metric (name value unit interpretation : string) : pyval :=
  PDict [("name", PStr name); ("value", PStr value); ("unit", PStr unit);
         ("interpretation", PStr interpretation)].

(** Lines 144-166. *)
Definition real_data
    (today formatted_no2 risk_level risk_color_hex risk_interpretation : string)
  : report :=
  [ ("region_name", PStr "Greater California Area (Live Earthdata)");
    ("analysis_date", PStr (today ++ " (Live)"));
    ("summary", PStr ("Live AI analysis confirms **" ++ risk_level
       ++ "** air quality risk. Based on OMI data, the average Tropospheric NO2 in the BBOX is **"
       ++ formatted_no2 ++ " moles/cm²**."));
    ("metrics", PList [
       metric "Average Tropospheric NO2" formatted_no2 "moles/cm²"
              risk_interpretation;
       metric "Data Source" "NASA OMI/Aura" "Satellite"
              "Analysis using actual satellite data for the specified period." ]);
    ("recommendations", PList [
       PStr "Implement dynamic traffic metering to reduce localized NO2 spikes.";
       PStr "Promote public transport usage during peak NO2 hours.";
       PStr "Review industrial emission standards in areas with peak NO2 readings." ]);
    ("is_live_data", PBool true);
    ("risk_color_hex", PStr risk_color_hex);
    ("risk_level", PStr risk_level) ].

(** Lines 128-166, without the [print]: the report for a mean. *)
Definition live_report (today : string) (overall_mean_no2 : float) : report :=
  let formatted_no2 := format_2e overall_mean_no2 in
  let '(risk_level, risk_color_hex, risk_interpretation) :=
    classify overall_mean_no2 formatted_no2 in
  real_data today formatted_no2 risk_level risk_color_hex risk_interpretation.

(** Lines 128-168: format, classify and shape the report. *)
Definition shape (overall_mean_no2 : float) : M report :=
  let formatted_no2 := format_2e overall_mean_no2 in
  print ("Successfully retrieved and calculated Average NO2: "
           ++ formatted_no2 ++ " moles/cm^2") ;;;
  today <- time_strftime "%Y-%m-%d" ;;
  ret (live_report today overall_mean_no2).

(** Lines 175-190. *)
Definition mock_data : report :=
  [ ("region_name", PStr "Greater Los Angeles Area (Simulated)");
    ("analysis_date", PStr "2024-10-01 (Simulated)");
    ("summary", PStr "AI analysis highlights extreme Urban Heat Island effects and correlated pollution spikes near major transport hubs.");
    ("metrics", PList [
       metric "Average Tropospheric NO2" "5.50e+15" "moles/cm²"
         "Simulated high NO2 concentration reflecting heavy urban activity and traffic.";
       metric "Average Land Surface Temperature (LST)" "95.2°F" "Fahrenheit"
         "High LST suggests severe Urban Heat Island effect, necessitating green infrastructure interventions.";
       metric "NDVI (Vegetation Index) Score" "0.15" "Index (0-1)"
         "Extremely low score, indicating insufficient park coverage and tree canopy for heat mitigation.";
       metric "Precipitation Anomaly" "-3.2 inches" "Inches (vs historical avg)"
         "Significant long-term drought conditions confirmed by NASA's GRACE-FO data, critical water management required." ]);
    ("recommendations", PList [
       PStr "Mandate reflective roofing materials across all new industrial development.";
       PStr "Implement a 'Cool Pavement' pilot program in high-LST residential zones.";
       PStr "Identify 50 acres for new urban agriculture and vertical farming projects to improve NDVI and air quality." ]) ].

(** Lines 27-168, the body of the [try]. *)
Definition live_pipeline : M report :=
  files <- acquire ;;
  overall_mean_no2 <- reduce files ;;
  shape overall_mean_no2.

(** Lines 18-192. *)
Definition fetch_california_data : M report :=
  try_except_Exception live_pipeline
    (fun e =>
       print ("Using mock data due to error: " ++ exc_str e) ;;;
       ret mock_data).

(** One request: the function run from the directory as the world has it. *)
Definition run {A} (m : M A) (w : World) : outcome A * state :=
  m w (init_state w).

Definition result {A} (m : M A) (w : World) : outcome A := fst (run m w).
Definition trace {A} (m : M A) (w : World) : list event := st_log (snd (run m w)).

(** *** Worlds to run the function in *)

Definition granule_name : string :=
  "OMI-Aura_L3-OMNO2d_2025m0901_v003-2025m0904t055810.he5".

(** Every collaborator answers; the reduction answers [mean]. *)
Definition calm_world (cache : list string) (granules : list string)
    (mean : outcome float) : World :=
  {| w_login := fun _ => Return tt;
     w_search := fun _ _ _ => Return granules;
     w_cache := cache;
     w_download := fun gs names =>
       (Return tt,
        (names ++ filter (fun g => negb (existsb (String.eqb g) names)) gs)%list);
     w_open_mfdataset := fun _ => Return (DatasetRef 0);
     w_assign_coords := fun _ _ _ => Return (DatasetRef 1);
     w_sel := fun _ _ _ => Return (DatasetRef 2);
     w_mean := fun _ _ _ => mean;
     w_strftime := fun _ => "2025-10-05";
     w_stdout_closed := false;
     w_stdout_encode := fun _ => Return tt |}.

(** The risk level, the colour and the interpretation of a mean. *)
Definition risk_level_of (x : float) : string :=
  fst (fst (classify x (format_2e x))).

Definition risk_color_hex_of (x : float) : string :=
  snd (fst (classify x (format_2e x))).

Definition risk_interpretation_of (x : float) : string :=
  snd (classify x (format_2e x)).

(** The reduction as the live path sees it: acquisition, then the mean. *)
Definition reduction : M float :=
  files <- acquire ;;
  reduce files.

(** The [value] of the first metric of a report. *)
Definition no2_value (r : report) : option pyval :=
  match dict_get r "metrics" with
  | Some (PList (PDict m :: _)) => dict_get m "value"
  | _ => None
  end.

(** No raised object of a trace escapes [except Exception]. *)
Definition only_Exceptions (tr : list event) : bool :=
  forallb (fun ev => match ev with
                     | EvRaise e => exc_is_Exception e
                     | _ => true
                     end) tr.

(** The [print] of line 172 goes through, if the handler gets to run. *)
Definition fallback_print_succeeds (w : World) : bool :=
  match result live_pipeline w with
  | Return _ => true
  | Raise e =>
      negb (exc_is_Exception e)
      || match stdout_answer w ("Using mock data due to error: "
                                ++ exc_str e) with
         | Return _ => true
         | Raise _ => false
         end
  end.

Definition is_download (ev : event) : bool :=
  match ev with EvDownload _ _ => true | _ => false end.

Definition is_raise (ev : event) : bool :=
  match ev with EvRaise _ => true | _ => false end.

Fixpoint Qlist_eqb (l1 l2 : list Q) : bool :=
  match l1, l2 with
  | [], [] => true
  | a :: l1', b :: l2' => Qeq_bool a b && Qlist_eqb l1' l2'
  | _, _ => false
  end.

(** The samples [start + i * step] for [i < num]. *)
Definition grid (start step : Q) (num : nat) : list Q :=
  map (fun i => (start + step * inject_Z (Z.of_nat i))%Q) (seq 0 num).

(** The list under [key] of a report, and the names of its metrics. *)
Definition dict_list (r : report) (key : string) : list pyval :=
  match dict_get r key with
  | Some (PList l) => l
  | _ => []
  end.

Definition metric_names (r : report) : list (option pyval) :=
  map (fun m => match m with
                | PDict d => dict_get d "name"
                | _ => None
                end) (dict_list r "metrics").

(** An event the live path emits when nothing is raised; the grid put on a
    dataset is the fixed one. *)
Definition plain (ev : event) : Prop :=
  match ev with
  | EvRaise _ => False
  | EvAssignCoords _ la lo => la = lat /\ lo = lon
  | _ => True
  end.

(** A computation only adds [plain] events to the log, and the exception it
    raises, if any, last. *)
Definition disciplined {A} (m : M A) : Prop :=
  forall w st,
    match m w st with
    | (Return _, st') =>
        exists new, st_log st' = (new ++ st_log st)%list /\ Forall plain new
    | (Raise e, st') =>
        exists new, st_log st' = (EvRaise e :: new ++ st_log st)%list
                    /\ Forall plain new
    end.

(** *** More worlds *)

Definition KeyboardInterrupt : exc :=
  {| exc_class := "KeyboardInterrupt"; exc_is_Exception := false;
     exc_str := "" |}.

Definition LoginError : exc :=
  {| exc_class := "LoginStrategyUnavailable"; exc_is_Exception := true;
     exc_str := "EARTHDATA_USERNAME and EARTHDATA_PASSWORD are not set" |}.

(** The collaborators, in the order the live path calls them. *)
Inductive step : Type :=
| AtLogin | AtSearch | AtDownload | AtOpen | AtAssignCoords | AtSel | AtMean.

Definition step_eqb (a b : step) : bool :=
  match a, b with
  | AtLogin, AtLogin | AtSearch, AtSearch | AtDownload, AtDownload
  | AtOpen, AtOpen | AtAssignCoords, AtAssignCoords | AtSel, AtSel
  | AtMean, AtMean => true
  | _, _ => false
  end.

(** The answer of the collaborator at [here] when the one at [s] is the
    one that raises [e]. *)
Definition answer_at {A} (s here : step) (e : exc) (a : A) : outcome A :=
  if step_eqb s here then Raise e else Return a.

(** Every collaborator answers, except the one at [s], which raises [e];
    the directory is empty and the download puts the granule in it. *)
Definition failing_world (s : step) (e : exc) : World :=
  {| w_login := fun _ => answer_at s AtLogin e tt;
     w_search := fun _ _ _ => answer_at s AtSearch e [granule_name];
     w_cache := [];
     w_download := fun gs names =>
       (answer_at s AtDownload e tt, (names ++ gs)%list);
     w_open_mfdataset := fun _ => answer_at s AtOpen e (DatasetRef 0);
     w_assign_coords := fun _ _ _ => answer_at s AtAssignCoords e (DatasetRef 1);
     w_sel := fun _ _ _ => answer_at s AtSel e (DatasetRef 2);
     w_mean := fun _ _ _ => answer_at s AtMean e HIGH_RISK_THRESHOLD;
     w_strftime := fun _ => "2025-10-05";
     w_stdout_closed := false;
     w_stdout_encode := fun _ => Return tt |}.

Definition login_raises (e : exc) : World := failing_world AtLogin e.

(** The world [w] seen through another standard output. *)
Definition with_stdout (closed : bool) (encode : string -> outcome unit)
    (w : World) : World :=
  {| w_login := w_login w;
     w_search := w_search w;
     w_cache := w_cache w;
     w_download := w_download w;
     w_open_mfdataset := w_open_mfdataset w;
     w_assign_coords := w_assign_coords w;
     w_sel := w_sel w;
     w_mean := w_mean w;
     w_strftime := w_strftime w;
     w_stdout_closed := closed;
     w_stdout_encode := encode |}.

(** A log-in failure whose message has an accented letter, on a standard
    output that encodes to ASCII. *)
Definition AccentedLoginError : exc :=
  {| exc_class := "LoginStrategyUnavailable"; exc_is_Exception := true;
     exc_str := "identifiants refusés" |}.

Definition UnicodeEncodeError : exc :=
  {| exc_class := "UnicodeEncodeError"; exc_is_Exception := true;
     exc_str := "'ascii' codec can't encode character '\xe9' in position 48: ordinal not in range(128)" |}.

Definition ascii_stdout (w : World) : World :=
  with_stdout false (fun _ => Raise UnicodeEncodeError) w.

Definition accented_login_world : World :=
  ascii_stdout (login_raises AccentedLoginError).

(** A log-in failure on a closed standard output. *)
Definition closed_stdout_world : World :=
  with_stdout true (fun _ => Return tt) (login_raises LoginError).

(** A file name both listings of [acquire] match. *)
Definition dotted_name : string := "OMI-Aura_L3.OMNO2d_2025m0901.he5".


(** A first request on an empty directory, and a second one on the
    directory the first one leaves. *)
Definition first_request : World :=
  calm_world [] [granule_name] (Return HIGH_RISK_THRESHOLD).

Definition second_request : World :=
  calm_world (st_cache (snd (run fetch_california_data first_request)))
             [granule_name] (Return HIGH_RISK_THRESHOLD).

Definition nan_world : World :=
  calm_world [] [granule_name] (Return S754_nan).

(* ===================================================================== *)
(** ** The rest of [main.py] *)
(* ===================================================================== *)

(** *** Traces *)

(** A computation only adds events that satisfy [P] to the log. *)
Definition logs_only (P : event -> Prop) {A} (m : M A) : Prop :=
  forall w st,
    exists new, st_log (snd (m w st)) = (new ++ st_log st)%list
                /\ Forall P new.

(** What is logged once [acquire] has returned [files]: no call of the data
    archive and no listing any more, and the dataset is opened on [files]. *)
Definition after_acquire (files : list string) (ev : event) : Prop :=
  match ev with
  | EvLogin _ | EvSearch _ _ _ | EvGlob _ | EvDownload _ _ => False
  | EvOpen fs => fs = files
  | _ => True
  end.

Definition is_open (ev : event) : bool :=
  match ev with EvOpen _ => true | _ => false end.

Definition is_print (ev : event) : bool :=
  match ev with EvPrint _ => true | _ => false end.

(** The two listings of lines 55 and 58. *)
Definition guard_pattern : string := "tempo_data/OMI-Aura_L3.*he5".
Definition files_pattern : string := "tempo_data/OMI-Aura_L3*.he5".

(** A pattern character that stands for itself: any but the three that
    [fnmatch] reads as the start of a wildcard or of a character class. *)
Definition is_literal (c : ascii) : bool :=
  negb (Ascii.eqb c "*" || Ascii.eqb c "?" || Ascii.eqb c "[").

Fixpoint all_literal (s : string) : bool :=
  match s with
  | EmptyString => true
  | String c s' => is_literal c && all_literal s'
  end.

(** *** Reports *)

Definition is_PStr (v : pyval) : bool :=
  match v with PStr _ => true | _ => false end.

(** A metric as the page shows it: the four keys, in order, with strings. *)
Definition well_formed_metric (m : pyval) : bool :=
  match m with
  | PDict [(k1, PStr _); (k2, PStr _); (k3, PStr _); (k4, PStr _)] =>
      String.eqb k1 "name" && String.eqb k2 "value" && String.eqb k3 "unit"
      && String.eqb k4 "interpretation"
  | _ => false
  end.

Fixpoint keys_distinct (keys : list string) : bool :=
  match keys with
  | [] => true
  | k :: keys' => negb (existsb (String.eqb k) keys') && keys_distinct keys'
  end.

(** What the page can rely on, live or mock: the five common fields with
    their types, metrics with the four keys, three recommendations, and no
    key twice. *)
Definition well_formed_report (r : report) : bool :=
  match r with
  | ("region_name", PStr _) :: ("analysis_date", PStr _)
    :: ("summary", PStr _) :: ("metrics", PList metrics)
    :: ("recommendations", PList recommendations) :: others =>
      negb (is_empty metrics) && forallb well_formed_metric metrics
      && (List.length recommendations =? 3)%nat
      && forallb is_PStr recommendations
      && keys_distinct (map fst r)
  | _ => false
  end.

(** *** The routes, lines 194-214 *)

(** [flask.render_template(name, **context)], as the templates answer. *)
Definition renderer : Type :=
  string -> list (string * report) -> outcome string.

Definition render_template (render : renderer) (name : string)
    (context : list (string * report)) : M string :=
  fun _ st =>
    match render name context with
    | Return page => (Return page, st)
    | Raise e => (Raise e, log (EvRaise e) st)
    end.

(** What [abort(500)] raises. *)
Definition InternalServerError : exc :=
  {| exc_class := "InternalServerError"; exc_is_Exception := true;
     exc_str := "500 Internal Server Error: The server encountered an internal error and was unable to complete your request. Either the server is overloaded or there is an error in the application." |}.

(** [abort(500)] *)
Definition abort_500 {A} : M A := raise InternalServerError.

(** Lines 194-197. *)
Definition home (render : renderer) : M string :=
  render_template render "main.html" [].

(** Lines 199-214. *)
Definition california_model (render : renderer) : M string :=
  try_except_Exception
    (data <- fetch_california_data ;;
     render_template render "california_data.html" [("data", data)])
    (fun e =>
       print ("Fatal application error: " ++ exc_str e) ;;;
       abort_500).

(** Lines 210-214 on their own: the handler of the route. *)
Definition route_handler (e : exc) : M string :=
  print ("Fatal application error: " ++ exc_str e) ;;;
  abort_500.

(** Templates that render every report, and templates that need the live
    fields. *)
Definition easy_templates : renderer :=
  fun name _ => Return ("<html>" ++ name ++ "</html>").

Definition UndefinedError : exc :=
  {| exc_class := "UndefinedError"; exc_is_Exception := true;
     exc_str := "'dict object' has no attribute 'risk_level'" |}.

Definition strict_templates : renderer :=
  fun name context =>
    match context with
    | [(_, data)] =>
        if dict_has data "risk_level"
        then Return ("<html>" ++ name ++ "</html>")
        else Raise UndefinedError
    | _ => Return ("<html>" ++ name ++ "</html>")
    end.



Definition cached_world : World :=
  calm_world [dotted_name] [granule_name] (Return HIGH_RISK_THRESHOLD).

(** *** [preprocess_omi_l3], lines 77-91 *)

(** A dataset as the reader hands it to [preprocess]: its variables, in
    order, each with its dimensions and their sizes, and the names of the
    variables that are coordinates. *)
Definition xr_variable : Type := list (string * nat).

Record xr_dataset : Type := {
  xr_variables : list (string * xr_variable);
  xr_coord_names : list string
}.

Definition xr_dims (ds : xr_dataset) : list string :=
  flat_map (fun v => map fst (snd v)) (xr_variables ds).

(** [d in ds.dims] and [name in ds] *)
Definition has_dim (ds : xr_dataset) (d : string) : bool :=
  existsb (String.eqb d) (xr_dims ds).

Definition has_var (ds : xr_dataset) (name : string) : bool :=
  existsb (fun v => String.eqb (fst v) name) (xr_variables ds).

(** A variable over the one dimension that bears its name is a coordinate
    of the dataset, listed or not. *)
Definition is_index (v : string * xr_variable) : bool :=
  match snd v with
  | [d] => String.eqb (fst d) (fst v)
  | _ => false
  end.

Definition is_coord (ds : xr_dataset) (name : string) : bool :=
  existsb (String.eqb name) (xr_coord_names ds)
  || existsb (fun v => String.eqb (fst v) name && is_index v)
             (xr_variables ds).

Definition coord_names (ds : xr_dataset) : list string :=
  filter (is_coord ds) (map fst (xr_variables ds)).

Definition rename_by (mapping : list (string * string)) (d : string) : string :=
  match find (fun kv => String.eqb (fst kv) d) mapping with
  | Some kv => snd kv
  | None => d
  end.

Definition rename_var (mapping : list (string * string))
    (v : string * xr_variable) : string * xr_variable :=
  (fst v, map (fun d => (rename_by mapping (fst d), snd d)) (snd v)).

(** [ds.rename_dims(mapping)]: the dimensions change names, the variables
    and the coordinates keep theirs.  The library raises [ValueError]
    ([None] here) when an old name is not a dimension of [ds] or a new name
    is already a dimension or a variable of [ds]. *)
Definition rename_dims (mapping : list (string * string)) (ds : xr_dataset)
  : option xr_dataset :=
  if forallb (fun kv => has_dim ds (fst kv)
                        && negb (has_dim ds (snd kv))
                        && negb (has_var ds (snd kv))) mapping
  then Some {| xr_variables := map (rename_var mapping) (xr_variables ds);
               xr_coord_names := coord_names ds |}
  else None.

(** [ds.drop_vars(name)]; [ValueError] when there is no such variable. *)
Definition drop_vars (name : string) (ds : xr_dataset) : option xr_dataset :=
  if has_var ds name
  then Some {| xr_variables :=
                 filter (fun v => negb (String.eqb (fst v) name))
                        (xr_variables ds);
               xr_coord_names :=
                 filter (fun n => negb (String.eqb n name)) (coord_names ds) |}
  else None.

(** What [expand_dims({d: 1})] makes of one variable: the new dimension
    goes in front of a data variable, a coordinate is left as it is, and a
    scalar variable named [d] becomes the variable over [d]. *)
Definition expand_var (ds : xr_dataset) (d : string)
    (v : string * xr_variable) : string * xr_variable :=
  if String.eqb (fst v) d then (fst v, [(d, 1%nat)])
  else if is_coord ds (fst v) then v
  else (fst v, (d, 1%nat) :: snd v).

(** [ds.expand_dims({d: 1})].  [ValueError] when [d] is already a
    dimension, or the name of a variable that has dimensions. *)
Definition expand_dims (d : string) (ds : xr_dataset) : option xr_dataset :=
  if has_dim ds d
     || existsb (fun v => String.eqb (fst v) d && negb (is_empty (snd v)))
                (xr_variables ds)
  then None
  else Some {| xr_variables := map (expand_var ds d) (xr_variables ds);
               xr_coord_names := coord_names ds |}.

Definition preprocess_omi_l3 (ds : xr_dataset) : option xr_dataset :=
  match rename_dims [("phony_dim_0", "lat"); ("phony_dim_1", "lon")] ds with
  | None => None
  | Some ds =>
      match (if has_var ds "Weight" then drop_vars "Weight" ds else Some ds) with
      | None => None
      | Some ds => expand_dims "time" ds
      end
  end.

(** The shape of a variable, and the group of one OMNO2d file: five data
    variables on the grid and no coordinate. *)
Definition xr_shape (v : string * xr_variable) : list nat := map snd (snd v).

Definition raw_granule : xr_dataset :=
  let grid := [("phony_dim_0", 720%nat); ("phony_dim_1", 1440%nat)] in
  {| xr_variables :=
       [ ("ColumnAmountNO2", grid); ("ColumnAmountNO2CloudScreened", grid);
         ("ColumnAmountNO2Trop", grid);
         ("ColumnAmountNO2TropCloudScreened", grid); ("Weight", grid) ];
     xr_coord_names := [] |}.

(** The same group with a coordinate variable on each dimension. *)
Definition indexed_granule : xr_dataset :=
  {| xr_variables :=
       [ ("phony_dim_0", [("phony_dim_0", 720%nat)]);
         ("phony_dim_1", [("phony_dim_1", 1440%nat)]);
         ("ColumnAmountNO2Trop",
          [("phony_dim_0", 720%nat); ("phony_dim_1", 1440%nat)]) ];
     xr_coord_names := ["phony_dim_0"; "phony_dim_1"] |}.

(** *** [numpy.linspace] in binary64 *)

(** The binary64 number nearest to [m * 2^e]. *)
Definition binary64_of (m e : Z) : float := binary_normalize 53 1024 m e false.

Definition float_of_nat (n : nat) : float := binary64_of (Z.of_nat n) 0.

(** [np.linspace(start, stop, num)] as the library computes it on two
    Python floats: [delta = stop - start], [step = delta / div] with
    [div = num - 1], the samples [arange(num) * step + start] (when [step]
    underflows to zero, [arange(num) / div * delta + start]), and the last
    one overwritten with [stop]; every operation rounds to binary64. *)
Definition np_linspace (start stop : float) (num : nat) : list float :=
  let div := (num - 1)%nat in
  let delta := SFsub 53 1024 stop start in
  let y := map float_of_nat (seq 0 num) in
  let y :=
    if (0 <? div)%nat
    then
      let step := SFdiv 53 1024 delta (float_of_nat div) in
      if SFeqb step (S754_zero false)
      then map (fun v => SFmul 53 1024 (SFdiv 53 1024 v (float_of_nat div))
                               delta) y
      else map (fun v => SFmul 53 1024 v step) y
    else map (fun v => SFmul 53 1024 v delta) y in
  let y := map (fun v => SFadd 53 1024 v start) y in
  if (1 <? num)%nat then (firstn (num - 1) y ++ [stop])%list else y.

(** Lines 107-108 in binary64; [-89.875] is [-719/8] and [-179.875] is
    [-1439/8], both binary64 numbers. *)
Definition np_lat : list float :=
  np_linspace (binary64_of (-719) (-3)) (binary64_of 719 (-3)) 720.

Definition np_lon : list float :=
  np_linspace (binary64_of (-1439) (-3)) (binary64_of 1439 (-3)) 1440.

(* ===================================================================== *)
(** ** Floats: comparison and formatting *)
(* ===================================================================== *)

Section FloatFacts.

Local Open Scope Z_scope.

Lemma float_ge_finite (a b : float) :
  is_finite a = true -> is_finite b = true ->
  float_ge a b = true <-> (float_value b <= float_value a)%Q.
Proof.
  intros Ha Hb.
  destruct a, b; try discriminate; unfold float_ge, to_xreal;
    apply Qle_bool_iff.
Qed.

Lemma float_ge_nan_l (b : float) : float_ge S754_nan b = false.
Proof. reflexivity. Qed.

(** The threshold is the binary64 number nearest to 1.6e-9: a 53-bit
    mantissa, and within half a unit in the last place of the decimal. *)
Lemma HIGH_RISK_THRESHOLD_nearest :
  valid_binary 53 1024 HIGH_RISK_THRESHOLD = true
  /\ (Qabs (float_value HIGH_RISK_THRESHOLD - 1.6e-9) < 1 # (2 ^ 83))%Q.
Proof. split; reflexivity. Qed.

Lemma scale_range (fuel : nat) :
  forall num den k,
    0 < num -> 0 < den ->
    den <= num * 10 ^ Z.of_nat fuel ->
    num < den * 10 ^ (Z.of_nat fuel + 1) ->
    let '(n, d, _) := scale fuel num den k in
    0 < d /\ d <= n < 10 * d.
Proof.
  induction fuel as [|fuel IH]; intros num den k Hn Hd Hlo Hhi.
  - cbn [scale]. change (10 ^ Z.of_nat 0) with 1 in Hlo.
    change (10 ^ (Z.of_nat 0 + 1)) with 10 in Hhi. lia.
  - cbn [scale].
    rewrite Nat2Z.inj_succ in Hlo, Hhi.
    assert (Hp : 0 < 10 ^ Z.of_nat fuel) by (apply Z.pow_pos_nonneg; lia).
    rewrite Z.pow_succ_r in Hlo by lia.
    replace (Z.succ (Z.of_nat fuel) + 1) with (Z.succ (Z.of_nat fuel + 1)) in Hhi by lia.
    rewrite Z.pow_succ_r in Hhi by lia.
    assert (Hp1 : 10 ^ (Z.of_nat fuel + 1) = 10 * 10 ^ Z.of_nat fuel)
      by (rewrite Z.add_1_r, Z.pow_succ_r; lia).
    destruct (Z.ltb_spec num den) as [Hlt|Hge].
    + apply IH; try lia. rewrite Hp1. nia.
    + destruct (Z.leb_spec (10 * den) num) as [Hle|Hgt].
      * apply IH; try lia. nia.
      * lia.
Qed.

Lemma scale_fuel_enough (num den : Z) :
  0 < num -> 0 < den ->
  den <= num * 10 ^ Z.of_nat (scale_fuel num den)
  /\ num < den * 10 ^ (Z.of_nat (scale_fuel num den) + 1).
Proof.
  intros Hn Hd. unfold scale_fuel.
  pose proof (Z.log2_nonneg num) as Ln.
  pose proof (Z.log2_nonneg den) as Ld.
  rewrite Nat2Z.inj_succ, Z2Nat.id by lia.
  set (f := Z.succ (Z.log2 num + Z.log2 den)).
  destruct (Z.log2_spec num Hn) as [_ Hn2].
  destruct (Z.log2_spec den Hd) as [_ Hd2].
  assert (H2f : 2 ^ f <= 10 ^ f) by (apply Z.pow_le_mono_l; lia).
  assert (H2f1 : 2 ^ (f + 1) <= 10 ^ (f + 1)) by (apply Z.pow_le_mono_l; lia).
  assert (Hdf : 2 ^ Z.succ (Z.log2 den) <= 2 ^ f)
    by (apply Z.pow_le_mono_r; lia).
  assert (Hnf : 2 ^ Z.succ (Z.log2 num) <= 2 ^ (f + 1))
    by (apply Z.pow_le_mono_r; lia).
  split; nia.
Qed.

Lemma round_half_even_range (n d : Z) :
  0 < d -> d <= n < 10 * d ->
  100 <= round_half_even (100 * n) d <= 1000.
Proof.
  intros Hd Hn. unfold round_half_even.
  assert (100 <= 100 * n / d) by (apply Z.div_le_lower_bound; lia).
  assert (100 * n / d < 1000) by (apply Z.div_lt_upper_bound; lia).
  destruct (_ || _); lia.
Qed.

Lemma is_digit_digit (n : Z) : 0 <= n <= 9 -> is_digit (digit n) = true.
Proof.
  intros H. unfold digit.
  assert (Hk : (Z.to_nat n < 10)%nat) by lia.
  revert Hk. generalize (Z.to_nat n) as k. intros k Hk.
  do 10 (destruct k as [|k]; [reflexivity|]). lia.
Qed.

Lemma is_sci2_of_unsigned (s : string) :
  is_sci2_unsigned s = true -> is_sci2 s = true.
Proof.
  destruct s as [|c s]; [discriminate|].
  intros H. unfold is_sci2.
  destruct (Ascii.eqb_spec c "-") as [->|_]; [|exact H].
  discriminate H.
Qed.

Lemma all_digits_uint (u : Decimal.uint) :
  all_digits (NilEmpty.string_of_uint u) = true.
Proof. induction u; simpl; auto. Qed.

Lemma all_digits_exp (k : Z) :
  all_digits (exp_digits k) = true
  /\ (2 <= String.length (exp_digits k))%nat.
Proof.
  unfold exp_digits.
  set (u := N.to_uint _).
  assert (Hall : all_digits (NilZero.string_of_uint u) = true).
  { unfold NilZero.string_of_uint. destruct u; try reflexivity;
      apply all_digits_uint. }
  assert (Hlen : (1 <= String.length (NilZero.string_of_uint u))%nat).
  { unfold NilZero.string_of_uint. destruct u; simpl; lia. }
  destruct (Nat.ltb_spec (String.length (NilZero.string_of_uint u)) 2).
  - simpl. split; [exact Hall | lia].
  - split; [exact Hall | lia].
Qed.

Lemma format_mantissa_exp_shape (q k : Z) :
  100 <= q <= 999 ->
  is_sci2_unsigned (format_mantissa_exp q k) = true.
Proof.
  intros Hq.
  assert (H1 : 1 <= q / 100 <= 9).
  { split; [apply Z.div_le_lower_bound | apply Z.lt_succ_r, Z.div_lt_upper_bound]; lia. }
  assert (H2 : 0 <= (q / 10) mod 10 <= 9) by (pose proof (Z.mod_pos_bound (q / 10) 10); lia).
  assert (H3 : 0 <= q mod 10 <= 9) by (pose proof (Z.mod_pos_bound q 10); lia).
  destruct (all_digits_exp k) as [Hall Hlen].
  unfold format_mantissa_exp, is_sci2_unsigned.
  rewrite !is_digit_digit by lia.
  apply Nat.leb_le in Hlen.
  destruct (k <? 0); cbn [append Ascii.eqb Bool.eqb andb orb];
    rewrite Hlen, Hall; reflexivity.
Qed.

Lemma inject_Z_pos (z : Z) : 0 < z -> (0 < inject_Z z)%Q.
Proof. intros H. unfold Qlt, inject_Z. cbn. lia. Qed.

Lemma inject_Z_nonzero (z : Z) : 0 < z -> ~ (inject_Z z == 0)%Q.
Proof. intros H E. unfold Qeq, inject_Z in E. cbn in E. lia. Qed.

Lemma scale_value (fuel : nat) :
  forall num den k,
    0 < num -> 0 < den ->
    let '(n, d, k') := scale fuel num den k in
    0 < n /\ 0 < d
    /\ (inject_Z n / inject_Z d * 10 ^ k'
        == inject_Z num / inject_Z den * 10 ^ k)%Q.
Proof.
  induction fuel as [|fuel IH]; intros num den k Hn Hd; cbn [scale].
  - split; [|split]; try assumption. reflexivity.
  - pose proof (inject_Z_nonzero den Hd) as Hden.
    destruct (Z.ltb_spec num den) as [Hlt|Hge].
    + specialize (IH (10 * num) den (k - 1)).
      destruct (scale fuel (10 * num) den (k - 1)) as [[n d] k'].
      destruct IH as (Hn' & Hd' & E); try lia.
      split; [|split]; try assumption. rewrite E.
      replace (k - 1) with (k + -1) by lia.
      rewrite Qpower_plus by discriminate.
      rewrite inject_Z_mult.
      change (10 ^ (-1))%Q with (1 # 10)%Q. change (inject_Z 10) with 10%Q.
      generalize (10 ^ k)%Q as P. intros P. field. exact Hden.
    + destruct (Z.leb_spec (10 * den) num) as [Hle|Hgt].
      * specialize (IH num (10 * den) (k + 1)).
        destruct (scale fuel num (10 * den) (k + 1)) as [[n d] k'].
        destruct IH as (Hn' & Hd' & E); try lia.
        split; [|split]; try assumption. rewrite E.
        rewrite Qpower_plus by discriminate.
        rewrite inject_Z_mult.
        change (10 ^ 1)%Q with 10%Q. change (inject_Z 10) with 10%Q.
        generalize (10 ^ k)%Q as P. intros P. field. exact Hden.
      * split; [|split]; try assumption. reflexivity.
Qed.

Lemma round_half_even_error (n d : Z) :
  0 < d ->
  (2 * round_half_even n d - 1) * d <= 2 * n
  <= (2 * round_half_even n d + 1) * d.
Proof.
  intros Hd. unfold round_half_even.
  pose proof (Z.div_mod n d ltac:(lia)) as E.
  pose proof (Z.mod_pos_bound n d Hd) as Hr.
  destruct (Z.ltb_spec d (2 * (n mod d))); cbn [orb]; [nia|].
  destruct (Z.eqb_spec d (2 * (n mod d))); cbn [andb]; [|nia].
  destruct (Z.odd (n / d)); nia.
Qed.

(** The digits are three, and they are the number to within half a unit of
    the last one. *)
Lemma digits_pos_spec (num den : Z) :
  0 < num -> 0 < den ->
  let '(q, k) := digits_pos num den in
  100 <= q <= 999
  /\ (inject_Z (2 * q - 1) * 10 ^ (k - 2)
      <= 2 * (inject_Z num / inject_Z den)
      <= inject_Z (2 * q + 1) * 10 ^ (k - 2))%Q.
Proof.
  intros Hn Hd. unfold digits_pos.
  destruct (scale_fuel_enough num den Hn Hd) as [Hlo Hhi].
  pose proof (scale_range (scale_fuel num den) num den 0 Hn Hd Hlo Hhi) as Hs.
  pose proof (scale_value (scale_fuel num den) num den 0 Hn Hd) as Hv.
  destruct (scale (scale_fuel num den) num den 0) as [[n d] k].
  destruct Hs as [Hd' Hn']. destruct Hv as (_ & _ & Hv).
  pose proof (round_half_even_range n d Hd' Hn') as Hq.
  pose proof (round_half_even_error (100 * n) d Hd') as He.
  set (q := round_half_even (100 * n) d) in *.
  pose proof (inject_Z_pos d Hd') as HdQ.
  pose proof (inject_Z_nonzero d Hd') as HdN.
  assert (Hx : (inject_Z num / inject_Z den
                == inject_Z (100 * n) / inject_Z d * 10 ^ (k - 2))%Q).
  { change (10 ^ 0)%Q with 1%Q in Hv. rewrite Qmult_1_r in Hv. rewrite <- Hv.
    replace (k - 2) with (k + -2) by lia.
    rewrite Qpower_plus by discriminate.
    rewrite inject_Z_mult.
    change (10 ^ (-2))%Q with (1 # 100)%Q. change (inject_Z 100) with 100%Q.
    generalize (10 ^ k)%Q as P. intros P. field. exact HdN. }
  assert (Hp : forall j, (0 < 10 ^ j)%Q) by (intros j; apply Qpower_0_lt; reflexivity).
  assert (Hbounds : (inject_Z (2 * q - 1) * 10 ^ (k - 2)
      <= 2 * (inject_Z num / inject_Z den)
      <= inject_Z (2 * q + 1) * 10 ^ (k - 2))%Q).
  { assert (Hmid : (2 * (inject_Z (100 * n) / inject_Z d * 10 ^ (k - 2))
                    == inject_Z (2 * (100 * n)) / inject_Z d * 10 ^ (k - 2))%Q).
    { rewrite (inject_Z_mult 2). change (inject_Z 2) with 2%Q.
      generalize (10 ^ (k - 2))%Q as P. intros P. field. exact HdN. }
    rewrite Hx, Hmid.
    split; (apply Qmult_le_compat_r; [|apply Qlt_le_weak, Hp]).
    - apply Qle_shift_div_l; [exact HdQ|].
      rewrite <- inject_Z_mult, <- Zle_Qle. lia.
    - apply Qle_shift_div_r; [exact HdQ|].
      rewrite <- inject_Z_mult, <- Zle_Qle. lia. }
  destruct (Z.leb_spec 1000 q) as [Hbig|Hsmall].
  - (* 9.995 and above print as 1.00 of the next decade *)
    assert (q = 1000) by lia.
    split; [lia|].
    assert (Hk : (10 ^ (k - 2) == (1 # 10) * 10 ^ (k + 1 - 2))%Q).
    { replace (k + 1 - 2) with (k - 2 + 1) by lia.
      rewrite Qpower_plus by discriminate.
      change (10 ^ 1)%Q with 10%Q.
      generalize (10 ^ (k - 2))%Q as P. intros P. field. }
    destruct Hbounds as [Hb1 Hb2]. rewrite Hk in Hb1, Hb2.
    pose proof (Hp (k + 1 - 2)) as HP.
    revert Hb1 Hb2 HP. subst q. rewrite H.
    generalize (10 ^ (k + 1 - 2))%Q as P.
    generalize (inject_Z num / inject_Z den)%Q as x.
    intros x P Hb1 Hb2 HP.
    change (inject_Z (2 * 1000 - 1)) with 1999%Q in Hb1.
    change (inject_Z (2 * 1000 + 1)) with 2001%Q in Hb2.
    change (inject_Z (2 * 100 - 1)) with 199%Q.
    change (inject_Z (2 * 100 + 1)) with 201%Q.
    split; lra.
  - split; [lia | exact Hbounds].
Qed.

Lemma format_pos_shape (num den : Z) :
  0 < num -> 0 < den -> is_sci2_unsigned (format_pos num den) = true.
Proof.
  intros Hn Hd. unfold format_pos.
  pose proof (digits_pos_spec num den Hn Hd) as H.
  destruct (digits_pos num den) as [q k].
  apply format_mantissa_exp_shape, H.
Qed.

(** Every finite float prints as [-?d.dde[+-]dd+]. *)
Lemma format_2e_shape (x : float) :
  is_finite x = true -> is_sci2 (format_2e x) = true.
Proof.
  destruct x as [s|s| |s m e]; intros Hfin; try discriminate Hfin.
  - destruct s; reflexivity.
  - assert (Hu : is_sci2_unsigned
                   (format_pos (Z.pos m * 2 ^ Z.max e 0) (2 ^ Z.max (- e) 0))
                 = true).
    { apply format_pos_shape.
      - apply Z.mul_pos_pos; [lia | apply Z.pow_pos_nonneg; lia].
      - apply Z.pow_pos_nonneg; lia. }
    unfold format_2e. destruct s; [exact Hu | apply is_sci2_of_unsigned, Hu].
Qed.

Lemma float_value_ratio (m : positive) (e : Z) :
  (inject_Z (Z.pos m) * 2 ^ e
   == inject_Z (Z.pos m * 2 ^ Z.max e 0) / inject_Z (2 ^ Z.max (- e) 0))%Q.
Proof.
  destruct (Z_le_gt_dec 0 e) as [He|He].
  - rewrite Z.max_l, Z.max_r by lia. change (2 ^ 0) with 1.
    rewrite inject_Z_mult, Zpower_Qpower by lia.
    change (inject_Z 2) with 2%Q. change (inject_Z 1) with 1%Q.
    generalize (2 ^ e)%Q as P. intros P. field.
  - rewrite Z.max_r, Z.max_l by lia. change (2 ^ 0) with 1.
    rewrite Z.mul_1_r, Zpower_Qpower by lia.
    change (inject_Z 2) with 2%Q.
    rewrite Qpower_opp.
    assert (HP : ~ (2 ^ e == 0)%Q) by (apply Qpower_not_0; discriminate).
    revert HP. generalize (2 ^ e)%Q as P. intros P HP. field. exact HP.
Qed.

Lemma float_value_abs (s : bool) (m : positive) (e : Z) :
  (Qabs (float_value (S754_finite s m e)) == inject_Z (Z.pos m) * 2 ^ e)%Q.
Proof.
  assert (Hpos : (0 <= inject_Z (Z.pos m) * 2 ^ e)%Q).
  { apply Qmult_le_0_compat; [discriminate|].
    apply Qpower_0_le. discriminate. }
  unfold float_value. destruct s.
  - setoid_replace (-1 * inject_Z (Z.pos m) * 2 ^ e)%Q
      with (- (inject_Z (Z.pos m) * 2 ^ e))%Q by ring.
    rewrite Qabs_opp. apply Qabs_pos, Hpos.
  - setoid_replace (1 * inject_Z (Z.pos m) * 2 ^ e)%Q
      with (inject_Z (Z.pos m) * 2 ^ e)%Q by ring.
    apply Qabs_pos, Hpos.
Qed.

(** What a finite non-zero float prints as: its sign, and the three digits
    and the exponent that are its size to within half a unit of the last
    digit. *)
Lemma format_2e_correct (s : bool) (m : positive) (e : Z) :
  exists q k,
    format_2e (S754_finite s m e)
    = (if s then "-" else "") ++ format_mantissa_exp q k
    /\ 100 <= q <= 999
    /\ within_half_unit (inject_Z (Z.pos m) * 2 ^ e) q k.
Proof.
  assert (Hn : 0 < Z.pos m * 2 ^ Z.max e 0)
    by (apply Z.mul_pos_pos; [lia | apply Z.pow_pos_nonneg; lia]).
  assert (Hd : 0 < 2 ^ Z.max (- e) 0) by (apply Z.pow_pos_nonneg; lia).
  pose proof (digits_pos_spec _ _ Hn Hd) as H.
  unfold format_2e, format_pos.
  destruct (digits_pos (Z.pos m * 2 ^ Z.max e 0) (2 ^ Z.max (- e) 0)) as [q k].
  exists q, k. split; [reflexivity|]. split; [apply H|].
  unfold within_half_unit. rewrite float_value_ratio. apply H.
Qed.

Lemma digits2_pos_bound (m : positive) : Z.pos m < 2 ^ Z.pos (digits2_pos m).
Proof.
  induction m as [m IH|m IH|]; cbn [digits2_pos];
    try (rewrite Pos2Z.inj_succ, Z.pow_succ_r by lia; lia).
  reflexivity.
Qed.

Lemma valid_binary_mantissa (s : bool) (m : positive) (e : Z) :
  valid_binary 53 1024 (S754_finite s m e) = true -> Z.pos m < 2 ^ 53.
Proof.
  unfold valid_binary, bounded, canonical_mantissa, fexp, emin.
  intros H. apply andb_true_iff in H. destruct H as [H _].
  apply Z.eqb_eq in H.
  pose proof (digits2_pos_bound m) as Hm.
  assert (Hd : Z.pos (digits2_pos m) <= 53) by lia.
  apply Z.lt_le_trans with (1 := Hm).
  apply Z.pow_le_mono_r; lia.
Qed.

Lemma float_value_pos (m : positive) (e : Z) :
  (float_value (S754_finite false m e) == inject_Z (Z.pos m) * 2 ^ e)%Q.
Proof. unfold float_value. ring. Qed.

(** No binary64 number lies between the decimal 1.6e-9 and the threshold,
    so comparing with the one is comparing with the other. *)
Lemma float_ge_threshold_decimal (x : float) :
  valid_binary 53 1024 x = true -> is_finite x = true ->
  float_ge x HIGH_RISK_THRESHOLD = true <-> (1.6e-9 <= float_value x)%Q.
Proof.
  intros Hv Hf.
  rewrite float_ge_finite by (exact Hf || reflexivity).
  assert (HT : (1.6e-9 < float_value HIGH_RISK_THRESHOLD)%Q) by reflexivity.
  split; intros H.
  - apply Qlt_le_weak. eapply Qlt_le_trans; eauto.
  - destruct x as [s|s| |s m e]; try discriminate Hf.
    + exfalso. revert H. apply Qlt_not_le. reflexivity.
    + pose proof (valid_binary_mantissa s m e Hv) as Hm.
      destruct s.
      * exfalso. revert H. apply Qlt_not_le.
        apply Qlt_trans with 0%Q; [|reflexivity].
        unfold float_value.
        assert (0 < inject_Z (Z.pos m) * 2 ^ e)%Q.
        { apply Qmult_lt_0_compat; [reflexivity | apply Qpower_0_lt; reflexivity]. }
        lra.
      * rewrite float_value_pos in *.
        set (c := (2 ^ (-82))%Q).
        assert (Hc : (0 < c)%Q) by reflexivity.
        assert (HF : (float_value HIGH_RISK_THRESHOLD == inject_Z 7737125245533627 * c)%Q) by reflexivity.
        assert (HT1 : (inject_Z (7737125245533627 - 1) * c < 1.6e-9)%Q) by reflexivity.
        rewrite HF.
        destruct (Z_le_gt_dec (-82) e) as [He|He].
        -- (* a multiple of 2^-82 *)
           assert (E : (2 ^ e == inject_Z (2 ^ (e + 82)) * c)%Q).
           { rewrite Zpower_Qpower by lia. unfold c.
             rewrite <- Qpower_plus by discriminate.
             replace (e + 82 + -82) with e by lia. reflexivity. }
           rewrite E in H |- *. rewrite Qmult_assoc in H |- *.
           rewrite <- inject_Z_mult in H |- *.
           set (N := Z.pos m * 2 ^ (e + 82)) in *.
           destruct (Z_le_gt_dec 7737125245533627 N) as [HN|HN].
           ++ apply Qmult_le_compat_r; [|apply Qlt_le_weak, Hc].
              rewrite <- Zle_Qle. exact HN.
           ++ exfalso. revert H. apply Qlt_not_le.
              eapply Qle_lt_trans; [|exact HT1].
              apply Qmult_le_compat_r; [|apply Qlt_le_weak, Hc].
              rewrite <- Zle_Qle. lia.
        -- (* too small *)
           exfalso. revert H. apply Qlt_not_le.
           apply Qle_lt_trans with (inject_Z (2 ^ 53) * 2 ^ (-83))%Q; [|reflexivity].
           apply Qle_trans with (inject_Z (Z.pos m) * 2 ^ (-83))%Q.
           ++ apply Qmult_le_l; [reflexivity|].
              apply Qpower_le_compat_l; [lia | discriminate].
           ++ apply Qmult_le_compat_r; [|discriminate].
              rewrite <- Zle_Qle. lia.
Qed.

End FloatFacts.

(* ===================================================================== *)
(** ** What the program prints *)
(* ===================================================================== *)

Section Printing.

Lemma is_ascii_app (a b : string) :
  is_ascii (a ++ b) = is_ascii a && is_ascii b.
Proof.
  induction a as [|c a IH]; [reflexivity|].
  cbn [append is_ascii]. rewrite IH. apply andb_assoc.
Qed.

Lemma is_digit_ascii (c : ascii) : is_digit c = true -> is_ascii_char c = true.
Proof.
  destruct c as [b0 b1 b2 b3 b4 b5 b6 []]; [|reflexivity].
  destruct b0, b1, b2, b3, b4, b5, b6; intros H; discriminate H.
Qed.

Lemma all_digits_ascii (s : string) : all_digits s = true -> is_ascii s = true.
Proof.
  induction s as [|c s IH]; [reflexivity|].
  cbn [all_digits is_ascii]. intros H. apply andb_true_iff in H.
  destruct H as [Hc Hs]. rewrite (is_digit_ascii c Hc), (IH Hs). reflexivity.
Qed.

Lemma is_ascii_str_of_nat (n : nat) : is_ascii (str_of_nat n) = true.
Proof.
  apply all_digits_ascii. unfold str_of_nat, NilZero.string_of_uint.
  destruct (Nat.to_uint n); try reflexivity; apply all_digits_uint.
Qed.

Lemma is_sci2_unsigned_ascii (s : string) :
  is_sci2_unsigned s = true -> is_ascii s = true.
Proof.
  destruct s as [|d1 [|dot [|d2 [|d3 [|e [|sg ex]]]]]]; cbn [is_sci2_unsigned];
    intros H; try discriminate H;
    try (rewrite andb_false_r in H; discriminate H).
  apply andb_true_iff in H. destruct H as [H1 H].
  apply andb_true_iff in H. destruct H as [H Hex].
  apply andb_true_iff in H. destruct H as [H _].
  apply andb_true_iff in H. destruct H as [H Hsg].
  apply andb_true_iff in H. destruct H as [H He].
  apply andb_true_iff in H. destruct H as [H H3].
  apply andb_true_iff in H. destruct H as [Hdot H2].
  apply Ascii.eqb_eq in Hdot, He. subst dot e.
  cbn [is_ascii].
  rewrite (is_digit_ascii _ H1), (is_digit_ascii _ H2), (is_digit_ascii _ H3),
    (all_digits_ascii _ Hex).
  apply orb_true_iff in Hsg.
  destruct Hsg as [E|E]; apply Ascii.eqb_eq in E; subst sg; reflexivity.
Qed.

Lemma is_ascii_format_2e (x : float) : is_ascii (format_2e x) = true.
Proof.
  destruct x as [s|s| |s m e]; try (destruct s; reflexivity); [reflexivity|].
  unfold format_2e. rewrite is_ascii_app.
  rewrite (is_sci2_unsigned_ascii (format_pos _ _)).
  - destruct s; reflexivity.
  - apply format_pos_shape.
    + apply Z.mul_pos_pos; [lia | apply Z.pow_pos_nonneg; lia].
    + apply Z.pow_pos_nonneg; lia.
Qed.

(** The four lines of the [try] body are ASCII, whatever they report. *)
Lemma is_ascii_processing (n : nat) :
  is_ascii ("Processing " ++ str_of_nat n ++ " downloaded HE5 files...") = true.
Proof. rewrite !is_ascii_app, is_ascii_str_of_nat. reflexivity. Qed.

Lemma is_ascii_success (x : float) :
  is_ascii ("Successfully retrieved and calculated Average NO2: "
            ++ format_2e x ++ " moles/cm^2") = true.
Proof. rewrite !is_ascii_app, is_ascii_format_2e. reflexivity. Qed.

Lemma stdout_answer_ascii (w : World) (line : string) :
  is_ascii line = true ->
  stdout_answer w line
  = if w_stdout_closed w then Raise closed_file_error else Return tt.
Proof. intros H. unfold stdout_answer. rewrite H. reflexivity. Qed.

Lemma print_open (w : World) (st : state) (line : string) :
  w_stdout_closed w = false -> is_ascii line = true ->
  print line w st = (Return tt, log (EvPrint line) st).
Proof.
  intros Hc Ha. unfold print. rewrite (stdout_answer_ascii w line Ha), Hc.
  reflexivity.
Qed.

Lemma print_closed (w : World) (st : state) (line : string) :
  w_stdout_closed w = true ->
  print line w st
  = (Raise closed_file_error, log (EvRaise closed_file_error) st).
Proof. intros Hc. unfold print, stdout_answer. rewrite Hc. reflexivity. Qed.

Lemma print_count (w : World) (st : state) (n : nat) :
  print (str_of_nat n) w st
  = if w_stdout_closed w
    then (Raise closed_file_error, log (EvRaise closed_file_error) st)
    else (Return tt, log (EvPrint (str_of_nat n)) st).
Proof.
  destruct (w_stdout_closed w) eqn:Hc;
    [apply print_closed | apply print_open]; auto using is_ascii_str_of_nat.
Qed.

End Printing.

(** Runs [acquire] in [w] along each of its eight paths: the log-in or the
    query raises, the standard output is closed at the first [print], the
    download raises, and the two listings find something or nothing. *)
Ltac exec_acquire_files w names :=
  destruct (glob_in names "tempo_data/OMI-Aura_L3*.he5")
    as [|?f ?fs] eqn:?Hfiles;
  cbn [is_empty fst snd st_cache st_log] in *;
  rewrite ?print_count in *;
  match goal with Hc : w_stdout_closed w = false |- _ => rewrite ?Hc in * end;
  unfold log in *;
  cbn [is_empty fst snd st_cache st_log] in *.

Ltac exec_acquire w :=
  unfold result, trace, run, acquire, bind, earthaccess_login,
    earthaccess_search_data, earthaccess_download, extern, glob,
    raise, ret, log, guard_pattern, files_pattern in *;
  cbn [init_state st_cache st_log fst snd] in *;
  destruct (w_login w "environment") as [[]|?e] eqn:?Hlogin;
  cbn [fst snd st_cache st_log] in *;
  [ destruct (w_search w "OMNO2d" (START_DATE, END_DATE) BBOX)
      as [?gs|?e] eqn:?Hsearch;
    cbn [fst snd st_cache st_log] in *;
    [ rewrite ?print_count in *;
      destruct (w_stdout_closed w) eqn:?Hclosed;
      unfold log in *;
      cbn [fst snd st_cache st_log] in *;
      [ | destruct (glob_in (w_cache w) "tempo_data/OMI-Aura_L3.*he5")
            as [|?f ?fs] eqn:?Hguard;
          cbn [is_empty fst snd st_cache st_log] in *;
          [ destruct (w_download w gs (w_cache w))
              as [[[]|?e] ?names] eqn:?Hdown;
            cbn [fst snd st_cache st_log] in *;
            [ exec_acquire_files w names | ]
          | exec_acquire_files w (w_cache w) ] ]
    | ]
  | ].

(* ===================================================================== *)
(** ** The pipeline: what it logs and what it returns *)
(* ===================================================================== *)

Section Discipline.

Lemma disciplined_ret {A} (a : A) : disciplined (ret a).
Proof. intros w st. exists []. split; [reflexivity | constructor]. Qed.

Lemma disciplined_raise {A} (e : exc) : disciplined (@raise A e).
Proof. intros w st. exists []. split; [reflexivity | constructor]. Qed.

Lemma disciplined_extern {A} (ev : event) (answer : World -> outcome A) :
  plain ev -> disciplined (extern ev answer).
Proof.
  intros Hev w st. unfold extern.
  destruct (answer w); exists [ev]; split;
    try reflexivity; repeat constructor; exact Hev.
Qed.

Lemma disciplined_print (line : string) : disciplined (print line).
Proof.
  intros w st. unfold print.
  destruct (stdout_answer w line) as [[]|e].
  - exists [EvPrint line]. split; [reflexivity | repeat constructor].
  - exists []. split; [reflexivity | constructor].
Qed.

Lemma disciplined_glob (pattern : string) : disciplined (glob pattern).
Proof.
  intros w st. exists [EvGlob pattern].
  split; [reflexivity | repeat constructor].
Qed.

Lemma disciplined_download (granules : list string) (dir : string) :
  disciplined (earthaccess_download granules dir).
Proof.
  intros w st. unfold earthaccess_download.
  destruct (w_download w granules (st_cache st)) as [[a|e] names];
    exists [EvDownload granules dir]; split;
    try reflexivity; repeat constructor.
Qed.

Lemma disciplined_strftime (fmt : string) : disciplined (time_strftime fmt).
Proof. intros w st. exists []. split; [reflexivity | constructor]. Qed.

Lemma disciplined_bind {A B} (m : M A) (f : A -> M B) :
  disciplined m -> (forall a, disciplined (f a)) -> disciplined (bind m f).
Proof.
  intros Hm Hf w st. unfold bind.
  specialize (Hm w st). destruct (m w st) as [[a|e] st1].
  - specialize (Hf a w st1). destruct (f a w st1) as [[b|e] st2];
      destruct Hm as (n1 & E1 & F1); destruct Hf as (n2 & E2 & F2);
      exists (n2 ++ n1)%list; rewrite E2, E1, app_assoc;
      (split; [reflexivity | apply Forall_app; split; assumption]).
  - exact Hm.
Qed.

Lemma disciplined_if {A} (b : bool) (m1 m2 : M A) :
  disciplined m1 -> disciplined m2 -> disciplined (if b then m1 else m2).
Proof. destruct b; auto. Qed.

End Discipline.

Create HintDb pipeline.
#[local] Hint Resolve disciplined_ret disciplined_raise disciplined_print
  disciplined_glob disciplined_download disciplined_strftime
  disciplined_if : pipeline.
#[local] Hint Extern 2 (disciplined (bind _ _)) =>
  apply disciplined_bind; [|intro] : pipeline.
#[local] Hint Extern 2 (disciplined (extern _ _)) =>
  apply disciplined_extern; simpl; auto : pipeline.

Section PipelineFacts.

Lemma live_report_fields (today : string) (x : float) :
  live_report today x
  = real_data today (format_2e x) (risk_level_of x) (risk_color_hex_of x)
              (risk_interpretation_of x).
Proof.
  unfold live_report, risk_level_of, risk_color_hex_of, risk_interpretation_of.
  destruct (classify x (format_2e x)) as [[l c] i]. reflexivity.
Qed.

Lemma risk_level_of_cases (x : float) :
  risk_level_of x
  = if float_ge x HIGH_RISK_THRESHOLD then "HIGH RISK" else "LOW/MODERATE RISK".
Proof.
  unfold risk_level_of, classify. destruct (float_ge _ _); reflexivity.
Qed.

Lemma risk_color_hex_of_cases (x : float) :
  risk_color_hex_of x
  = if float_ge x HIGH_RISK_THRESHOLD then "#DC2626" else "#059669".
Proof.
  unfold risk_color_hex_of, classify. destruct (float_ge _ _); reflexivity.
Qed.

Lemma acquire_disciplined : disciplined acquire.
Proof.
  unfold acquire, earthaccess_login, earthaccess_search_data.
  auto 20 with pipeline.
Qed.

Lemma reduce_disciplined (files : list string) : disciplined (reduce files).
Proof.
  unfold reduce, xr_open_mfdataset, assign_coords, sel, mean_item.
  auto 20 with pipeline.
Qed.

Lemma shape_disciplined (x : float) : disciplined (shape x).
Proof. unfold shape. auto 20 with pipeline. Qed.

Lemma live_pipeline_disciplined : disciplined live_pipeline.
Proof.
  unfold live_pipeline.
  pose proof acquire_disciplined. pose proof reduce_disciplined.
  pose proof shape_disciplined.
  auto 20 with pipeline.
Qed.


(** What the live path logs in one request. *)
Lemma live_pipeline_trace (w : World) :
  match result live_pipeline w with
  | Return _ => Forall plain (trace live_pipeline w)
  | Raise e => exists new,
      trace live_pipeline w = EvRaise e :: new /\ Forall plain new
  end.
Proof.
  unfold result, trace, run.
  pose proof (live_pipeline_disciplined w (init_state w)) as H.
  destruct (live_pipeline w (init_state w)) as [[r|e] st'];
    destruct H as (new & E & F); cbn [fst snd]; rewrite E;
    cbn [init_state st_log]; rewrite app_nil_r; eauto.
Qed.

(** The raised object of a trace of the live path is the one it ends on. *)
Lemma live_pipeline_raise (w : World) (e : exc) :
  In (EvRaise e) (trace live_pipeline w) ->
  result live_pipeline w = Raise e.
Proof.
  intros Hin. pose proof (live_pipeline_trace w) as H.
  destruct (result live_pipeline w) as [r|e'].
  - rewrite Forall_forall in H. destruct (H _ Hin).
  - destruct H as (new & E & F). rewrite E in Hin.
    destruct Hin as [Hin|Hin]; [congruence|].
    rewrite Forall_forall in F. destruct (F _ Hin).
Qed.

(** The handler of line 170 runs on an [Exception] only; it returns the
    mock report once its [print] has gone through, and raises what the
    [print] raises otherwise. *)
Lemma fetch_result (w : World) :
  result fetch_california_data w =
  match result live_pipeline w with
  | Return r => Return r
  | Raise e =>
      if exc_is_Exception e
      then match stdout_answer w ("Using mock data due to error: "
                                  ++ exc_str e) with
           | Return _ => Return mock_data
           | Raise e' => Raise e'
           end
      else Raise e
  end.
Proof.
  unfold result, run, fetch_california_data, try_except_Exception, bind,
    print, ret.
  destruct (live_pipeline w (init_state w)) as [[r|e] st']; cbn [fst];
    [reflexivity|].
  destruct (exc_is_Exception e); [|reflexivity].
  destruct (stdout_answer w _); reflexivity.
Qed.

Lemma fetch_trace (w : World) :
  trace fetch_california_data w = trace live_pipeline w
  \/ (exists line,
        trace fetch_california_data w = EvPrint line :: trace live_pipeline w)
  \/ (exists e,
        trace fetch_california_data w = EvRaise e :: trace live_pipeline w).
Proof.
  unfold trace, run, fetch_california_data, try_except_Exception, bind,
    print, ret.
  destruct (live_pipeline w (init_state w)) as [[r|e] st']; cbn [snd];
    [left; reflexivity|].
  destruct (exc_is_Exception e); [|left; reflexivity].
  destruct (stdout_answer w _);
    [right; left; eexists | right; right; eexists]; reflexivity.
Qed.


(** The acquisition prints, so it does not return on a closed standard
    output. *)
Lemma acquire_return_open (w : World) (files : list string) :
  result acquire w = Return files -> w_stdout_closed w = false.
Proof. intros H. exec_acquire w; try discriminate H; reflexivity. Qed.


Lemma live_of_acquire_raise (w : World) (e : exc) :
  result acquire w = Raise e -> result live_pipeline w = Raise e.
Proof.
  unfold result, run, live_pipeline, bind.
  destruct (acquire w (init_state w)) as [[files|e'] st1]; cbn [fst];
    intros H; [discriminate H | injection H as ->; reflexivity].
Qed.

(** The log of a request that goes well from an empty directory. *)
Lemma first_request_trace :
  trace fetch_california_data first_request
  = [ EvPrint "Successfully retrieved and calculated Average NO2: 1.60e-09 moles/cm^2";
      EvMean (DatasetRef 2) "ColumnAmountNO2Trop" ["lat"; "lon"; "time"];
      EvSel (DatasetRef 1) (lon_min, lon_max) (lat_min, lat_max);
      EvAssignCoords (DatasetRef 0) lat lon;
      EvOpen ["tempo_data/" ++ granule_name];
      EvPrint "Processing 1 downloaded HE5 files...";
      EvPrint "1"; EvGlob "tempo_data/OMI-Aura_L3*.he5";
      EvDownload [granule_name] "tempo_data";
      EvGlob "tempo_data/OMI-Aura_L3.*he5"; EvPrint "1";
      EvSearch "OMNO2d" (START_DATE, END_DATE) BBOX;
      EvLogin "environment" ].
Proof. vm_compute. reflexivity. Qed.

Lemma shape_open (w : World) (st : state) (x : float) :
  w_stdout_closed w = false ->
  shape x w st
  = (Return (live_report (w_strftime w "%Y-%m-%d") x),
     log (EvPrint ("Successfully retrieved and calculated Average NO2: "
                   ++ format_2e x ++ " moles/cm^2")) st).
Proof.
  intros Hc. unfold shape, bind.
  rewrite (print_open w st _ Hc (is_ascii_success x)). reflexivity.
Qed.

Lemma live_of_reduction (w : World) :
  result live_pipeline w =
  match result reduction w with
  | Return x => Return (live_report (w_strftime w "%Y-%m-%d") x)
  | Raise e => Raise e
  end.
Proof.
  pose proof (acquire_return_open w) as Hopen.
  unfold result, run, live_pipeline, reduction, bind in *.
  destruct (acquire w (init_state w)) as [[files|e] st1]; cbn [fst] in *;
    [|reflexivity].
  destruct (reduce files w st1) as [[x|e] st2]; [|reflexivity].
  rewrite (shape_open w st2 x (Hopen files eq_refl)). reflexivity.
Qed.

(** After an [Exception] on the live path, what the function gives is what
    the [print] of line 172 decides. *)
Lemma fallback_result (w : World) (e : exc) :
  In (EvRaise e) (trace live_pipeline w) ->
  exc_is_Exception e = true ->
  result fetch_california_data w
  = match stdout_answer w ("Using mock data due to error: " ++ exc_str e) with
    | Return _ => Return mock_data
    | Raise e' => Raise e'
    end.
Proof.
  intros Hin He.
  rewrite fetch_result, (live_pipeline_raise w e Hin), He. reflexivity.
Qed.

(** The mock report is what the handler returns, and nothing else does. *)
Lemma mock_is_not_live (today : string) (x : float) :
  live_report today x <> mock_data.
Proof. rewrite live_report_fields. discriminate. Qed.

Lemma fetch_of_reduction (w : World) (x : float) :
  result reduction w = Return x ->
  result fetch_california_data w
  = Return (live_report (w_strftime w "%Y-%m-%d") x).
Proof.
  intros H. rewrite fetch_result, live_of_reduction, H. reflexivity.
Qed.

(** Whichever collaborator fails, the failure is logged, and the report is
    the mock one when the failure is an [Exception]; otherwise the failure
    goes to the caller. *)
Lemma failure_at_any_step (s : step) (e : exc) :
  In (EvRaise e) (trace live_pipeline (failing_world s e))
  /\ result fetch_california_data (failing_world s e)
     = if exc_is_Exception e then Return mock_data else Raise e.
Proof.
  assert (Hin : In (EvRaise e) (trace live_pipeline (failing_world s e)))
    by (destruct s; unfold trace, run; cbn -[lat lon format_2e]; auto 10).
  split; [exact Hin|].
  rewrite fetch_result, (live_pipeline_raise _ _ Hin).
  destruct (exc_is_Exception e); [|reflexivity].
  unfold stdout_answer. cbn [failing_world w_stdout_closed w_stdout_encode].
  destruct (is_ascii _); reflexivity.
Qed.

End PipelineFacts.

(* ===================================================================== *)
(** ** The fallback *)
(* ===================================================================== *)

(** C1, as the spec has it, fails twice over.  An [Exception] raised in the
    [try] body does not end in the mock report when the [print] of line 172
    raises: with a message that has an accented letter on a standard output
    that encodes to ASCII, and with any message on a closed standard
    output, the function raises what [print] raises.  And a raised object
    that is not an instance of [Exception] is not caught at all. *)
Lemma C1_counterexample :
  (In (EvRaise AccentedLoginError) (trace live_pipeline accented_login_world)
   /\ exc_is_Exception AccentedLoginError = true
   /\ result fetch_california_data accented_login_world
      = Raise UnicodeEncodeError)
  /\ (In (EvRaise LoginError) (trace live_pipeline closed_stdout_world)
      /\ exc_is_Exception LoginError = true
      /\ result fetch_california_data closed_stdout_world
         = Raise closed_file_error)
  /\ (In (EvRaise KeyboardInterrupt)
         (trace live_pipeline (login_raises KeyboardInterrupt))
      /\ result fetch_california_data (login_raises KeyboardInterrupt)
         = Raise KeyboardInterrupt).
Proof.
  split; [|split].
  - split; [left; reflexivity|]. split; reflexivity.
  - split; [left; reflexivity|]. split; reflexivity.
  - split; [left; reflexivity | reflexivity].
Qed.

(** C1, amended. Whenever an instance of [Exception] is raised in the [try]
    body, whatever the step, and the [print] of line 172 goes through,
    [fetch_california_data] returns the static mock report: the fixed region
    name and analysis date, the four fixed metrics, the three fixed
    recommendations, and no live field. *)
Theorem C1_exception_returns_mock (w : World) (e : exc) :
  In (EvRaise e) (trace live_pipeline w) ->
  exc_is_Exception e = true ->
  stdout_answer w ("Using mock data due to error: " ++ exc_str e)
  = Return tt ->
  result fetch_california_data w = Return mock_data
  /\ dict_get mock_data "region_name"
     = Some (PStr "Greater Los Angeles Area (Simulated)")
  /\ dict_get mock_data "analysis_date" = Some (PStr "2024-10-01 (Simulated)")
  /\ metric_names mock_data
     = [Some (PStr "Average Tropospheric NO2");
        Some (PStr "Average Land Surface Temperature (LST)");
        Some (PStr "NDVI (Vegetation Index) Score");
        Some (PStr "Precipitation Anomaly")]
  /\ List.length (dict_list mock_data "recommendations") = 3%nat
  /\ dict_has mock_data "is_live_data" = false.
Proof.
  intros Hin He Hp. split; [|repeat split].
  rewrite (fallback_result w e Hin He), Hp. reflexivity.
Qed.

Lemma C1_witness :
  In (EvRaise LoginError) (trace live_pipeline (login_raises LoginError))
  /\ exc_is_Exception LoginError = true
  /\ stdout_answer (login_raises LoginError)
       ("Using mock data due to error: " ++ exc_str LoginError) = Return tt
  /\ result fetch_california_data (login_raises LoginError) = Return mock_data.
Proof.
  assert (Hin : In (EvRaise LoginError)
                   (trace live_pipeline (login_raises LoginError)))
    by (simpl; auto).
  split; [exact Hin|]. split; [reflexivity|]. split; [reflexivity|].
  exact (proj1 (C1_exception_returns_mock (login_raises LoginError) LoginError
                  Hin eq_refl eq_refl)).
Defined.

(** C5, as the spec has it, fails: an exception that is not an instance of
    [Exception] goes through [except Exception] to the caller, and so does
    what the [print] of the handler raises. *)
Lemma C5_counterexample :
  ~ (forall w : World, exists r, result fetch_california_data w = Return r).
Proof.
  intros H. destruct (H (login_raises KeyboardInterrupt)) as [r Hr].
  vm_compute in Hr. discriminate Hr.
Qed.

(** C5, amended. When every object raised in the [try] body is an instance
    of [Exception] and the [print] of line 172, if the handler runs, goes
    through, [fetch_california_data] raises nothing and returns a report:
    the live one or the mock one.  An object raised in the [try] body that
    is not an instance of [Exception] reaches the caller as it is; and when
    the [print] of line 172 raises, what it raises reaches the caller. *)
Theorem C5_returns_a_report (w : World) :
  (only_Exceptions (trace live_pipeline w) = true ->
   fallback_print_succeeds w = true ->
   exists r, result fetch_california_data w = Return r
     /\ (r = mock_data
         \/ exists x, result reduction w = Return x
              /\ r = live_report (w_strftime w "%Y-%m-%d") x))
  /\ (forall e, In (EvRaise e) (trace live_pipeline w) ->
        exc_is_Exception e = false ->
        result fetch_california_data w = Raise e)
  /\ (forall e e', In (EvRaise e) (trace live_pipeline w) ->
        exc_is_Exception e = true ->
        stdout_answer w ("Using mock data due to error: " ++ exc_str e)
        = Raise e' ->
        result fetch_california_data w = Raise e').
Proof.
  split; [|split].
  - intros Hall Hp. rewrite fetch_result.
    unfold fallback_print_succeeds in Hp.
    pose proof (live_pipeline_trace w) as Ht.
    pose proof (live_of_reduction w) as Hl.
    destruct (result live_pipeline w) as [r|e].
    + exists r. split; [reflexivity|]. right.
      destruct (result reduction w) as [x|e]; [|discriminate].
      exists x. split; congruence.
    + destruct Ht as (new & E & _). rewrite E in Hall.
      cbn [only_Exceptions forallb] in Hall.
      apply andb_true_iff in Hall. destruct Hall as [He _].
      rewrite He in Hp |- *. cbn [negb orb] in Hp.
      destruct (stdout_answer w _); [|discriminate Hp].
      exists mock_data. auto.
  - intros e Hin He.
    rewrite fetch_result, (live_pipeline_raise w e Hin), He. reflexivity.
  - intros e e' Hin He Hp.
    rewrite (fallback_result w e Hin He), Hp. reflexivity.
Qed.

Lemma C5_witness :
  only_Exceptions (trace live_pipeline (login_raises LoginError)) = true
  /\ fallback_print_succeeds (login_raises LoginError) = true
  /\ (exists r, result fetch_california_data (login_raises LoginError)
                = Return r)
  /\ result fetch_california_data (login_raises KeyboardInterrupt)
     = Raise KeyboardInterrupt
  /\ result fetch_california_data accented_login_world
     = Raise UnicodeEncodeError.
Proof.
  assert (H : only_Exceptions (trace live_pipeline (login_raises LoginError))
              = true) by reflexivity.
  assert (Hp : fallback_print_succeeds (login_raises LoginError) = true)
    by reflexivity.
  split; [exact H|]. split; [exact Hp|].
  split; [|split].
  - destruct (proj1 (C5_returns_a_report (login_raises LoginError)) H Hp)
      as (r & Hr & _).
    exists r. exact Hr.
  - apply (proj1 (proj2 (C5_returns_a_report (login_raises KeyboardInterrupt))));
      [left; reflexivity | reflexivity].
  - apply (proj2 (proj2 (C5_returns_a_report accented_login_world))
             AccentedLoginError);
      [left; reflexivity | reflexivity | reflexivity].
Defined.

(* ===================================================================== *)
(** ** The live report *)
(* ===================================================================== *)

(** C2. On the live path, with a finite mean, the risk level is "HIGH RISK"
    exactly when the mean is at least the threshold, the threshold itself
    included, and "LOW/MODERATE RISK" otherwise.  For a binary64 mean, being
    at least the threshold is being at least the decimal 1.6e-9. *)
Theorem C2_classification (w : World) (x : float) :
  result reduction w = Return x ->
  is_finite x = true ->
  exists r,
    result fetch_california_data w = Return r
    /\ (dict_get r "risk_level" = Some (PStr "HIGH RISK")
        <-> (float_value HIGH_RISK_THRESHOLD <= float_value x)%Q)
    /\ (~ (float_value HIGH_RISK_THRESHOLD <= float_value x)%Q
        -> dict_get r "risk_level" = Some (PStr "LOW/MODERATE RISK"))
    /\ ((float_value x == float_value HIGH_RISK_THRESHOLD)%Q
        -> dict_get r "risk_level" = Some (PStr "HIGH RISK"))
    /\ (valid_binary 53 1024 x = true ->
        (dict_get r "risk_level" = Some (PStr "HIGH RISK")
         <-> (1.6e-9 <= float_value x)%Q)).
Proof.
  intros Hred Hfin.
  exists (live_report (w_strftime w "%Y-%m-%d") x).
  split; [apply fetch_of_reduction, Hred|].
  pose proof (float_ge_finite x HIGH_RISK_THRESHOLD Hfin eq_refl) as Hge.
  assert (Hlvl : dict_get (live_report (w_strftime w "%Y-%m-%d") x) "risk_level"
                 = Some (PStr (risk_level_of x)))
    by (rewrite live_report_fields; reflexivity).
  rewrite Hlvl, risk_level_of_cases.
  assert (Hiff : Some (PStr (if float_ge x HIGH_RISK_THRESHOLD
                             then "HIGH RISK" else "LOW/MODERATE RISK"))
                 = Some (PStr "HIGH RISK")
                 <-> float_ge x HIGH_RISK_THRESHOLD = true).
  { destruct (float_ge x HIGH_RISK_THRESHOLD); split; intros H;
      try reflexivity; discriminate H. }
  split; [rewrite Hiff; exact Hge|].
  split.
  { intros Hn. destruct (float_ge x HIGH_RISK_THRESHOLD); [|reflexivity].
    exfalso. apply Hn, Hge. reflexivity. }
  split.
  { intros Heq. apply Hiff, Hge. rewrite Heq. apply Qle_refl. }
  intros Hv. rewrite Hiff. apply float_ge_threshold_decimal; assumption.
Qed.

Lemma C2_witness :
  result reduction first_request = Return HIGH_RISK_THRESHOLD
  /\ is_finite HIGH_RISK_THRESHOLD = true
  /\ exists r,
       result fetch_california_data first_request = Return r
       /\ dict_get r "risk_level" = Some (PStr "HIGH RISK").
Proof.
  assert (Hred : result reduction first_request = Return HIGH_RISK_THRESHOLD)
    by (vm_compute; reflexivity).
  split; [exact Hred|]. split; [reflexivity|].
  destruct (C2_classification first_request HIGH_RISK_THRESHOLD Hred eq_refl)
    as (r & Hr & _ & _ & Hb & _).
  exists r. split; [exact Hr|]. apply Hb. reflexivity.
Defined.

(** C7. On the live path the NO2 metric carries the mean printed by
    [format(x, ".2e")]: for a finite mean one digit, a point, two digits, a
    lowercase [e], a sign and at least two exponent digits, the three digits
    being the size of the mean to within half a unit of the last one; the
    binary64 number written 0.0000000016 prints as "1.60e-09". *)
Theorem C7_formatting (w : World) (x : float) :
  result reduction w = Return x ->
  exists r,
    result fetch_california_data w = Return r
    /\ no2_value r = Some (PStr (format_2e x))
    /\ (is_finite x = true -> is_sci2 (format_2e x) = true)
    /\ (forall s m e, x = S754_finite s m e ->
        exists q k,
          format_2e x = (if s then "-" else "") ++ format_mantissa_exp q k
          /\ (100 <= q <= 999)%Z
          /\ within_half_unit (Qabs (float_value x)) q k)
    /\ (x = HIGH_RISK_THRESHOLD -> no2_value r = Some (PStr "1.60e-09")).
Proof.
  intros Hred.
  exists (live_report (w_strftime w "%Y-%m-%d") x).
  split; [apply fetch_of_reduction, Hred|].
  split; [rewrite live_report_fields; reflexivity|].
  split; [apply format_2e_shape|].
  split.
  - intros s m e ->.
    destruct (format_2e_correct s m e) as (q & k & Hf & Hq & Hv).
    exists q, k. split; [exact Hf|]. split; [exact Hq|].
    unfold within_half_unit in *.
    rewrite float_value_abs. exact Hv.
  - intros ->. vm_compute. reflexivity.
Qed.

Lemma C7_witness :
  result reduction first_request = Return HIGH_RISK_THRESHOLD
  /\ exists r,
       result fetch_california_data first_request = Return r
       /\ no2_value r = Some (PStr "1.60e-09").
Proof.
  assert (Hred : result reduction first_request = Return HIGH_RISK_THRESHOLD)
    by (vm_compute; reflexivity).
  split; [exact Hred|].
  destruct (C7_formatting first_request HIGH_RISK_THRESHOLD Hred)
    as (r & Hr & _ & _ & _ & Hv).
  exists r. split; [exact Hr | exact (Hv eq_refl)].
Defined.

(** C8. A report of the live path has [is_live_data] true, a summary with
    the risk level and the formatted mean in it, the NO2 metric and the
    fixed "Data Source" metric, three fixed recommendations, and the colour
    that goes with its risk level; the mock report has none of
    [risk_color_hex], [risk_level] and [is_live_data]. *)
Theorem C8_report_shape (w : World) (r : report) :
  result live_pipeline w = Return r ->
  result fetch_california_data w = Return r
  /\ dict_get r "is_live_data" = Some (PBool true)
  /\ (exists x level,
        result reduction w = Return x
        /\ dict_get r "risk_level" = Some (PStr level)
        /\ (level = "HIGH RISK" \/ level = "LOW/MODERATE RISK")
        /\ (exists pre mid post,
              dict_get r "summary"
              = Some (PStr (pre ++ level ++ mid ++ format_2e x ++ post)))
        /\ (exists interpretation,
              dict_list r "metrics"
              = [ metric "Average Tropospheric NO2" (format_2e x) "moles/cm²"
                         interpretation;
                  metric "Data Source" "NASA OMI/Aura" "Satellite"
                    "Analysis using actual satellite data for the specified period." ])
        /\ dict_get r "risk_color_hex"
           = Some (PStr (if String.eqb level "HIGH RISK"
                         then "#DC2626" else "#059669")))
  /\ dict_list r "recommendations"
     = [ PStr "Implement dynamic traffic metering to reduce localized NO2 spikes.";
         PStr "Promote public transport usage during peak NO2 hours.";
         PStr "Review industrial emission standards in areas with peak NO2 readings." ]
  /\ dict_has mock_data "risk_color_hex" = false
  /\ dict_has mock_data "risk_color" = false
  /\ dict_has mock_data "risk_level" = false
  /\ dict_has mock_data "is_live_data" = false.
Proof.
  intros Hlive.
  split; [rewrite fetch_result, Hlive; reflexivity|].
  rewrite live_of_reduction in Hlive.
  destruct (result reduction w) as [x|e]; [|discriminate].
  injection Hlive as <-. rewrite live_report_fields.
  split; [reflexivity|].
  split; [|repeat split].
  exists x, (risk_level_of x).
  split; [reflexivity|]. split; [reflexivity|].
  split; [rewrite risk_level_of_cases; destruct (float_ge _ _); auto|].
  split; [do 3 eexists; reflexivity|].
  split; [eexists; reflexivity|].
  cbn [real_data dict_get String.eqb Ascii.eqb Bool.eqb].
  rewrite risk_level_of_cases, risk_color_hex_of_cases.
  destruct (float_ge x HIGH_RISK_THRESHOLD); reflexivity.
Qed.

Lemma C8_witness :
  exists r,
    result live_pipeline first_request = Return r
    /\ dict_get r "is_live_data" = Some (PBool true).
Proof.
  assert (H : result live_pipeline first_request
              = Return (live_report "2025-10-05" HIGH_RISK_THRESHOLD))
    by (vm_compute; reflexivity).
  exists (live_report "2025-10-05" HIGH_RISK_THRESHOLD).
  split; [exact H|].
  exact (proj1 (proj2 (C8_report_shape first_request _ H))).
Defined.

(* ===================================================================== *)
(** ** A NaN mean *)
(* ===================================================================== *)

(** C10. When every step answers and the mean is a NaN, the function
    returns a live report whose risk level is "LOW/MODERATE RISK" and whose
    NO2 metric reads "nan": the comparison with the threshold is false and
    nothing checks for NaN before it. *)
Theorem C10_nan_is_reported_live (w : World) :
  result reduction w = Return S754_nan ->
  exists r,
    result fetch_california_data w = Return r
    /\ dict_get r "is_live_data" = Some (PBool true)
    /\ dict_get r "risk_level" = Some (PStr "LOW/MODERATE RISK")
    /\ dict_get r "risk_color_hex" = Some (PStr "#059669")
    /\ no2_value r = Some (PStr "nan").
Proof.
  intros Hred.
  exists (live_report (w_strftime w "%Y-%m-%d") S754_nan).
  split; [apply fetch_of_reduction, Hred|].
  repeat split.
Qed.

Lemma C10_witness :
  result reduction nan_world = Return S754_nan
  /\ exists r,
       result fetch_california_data nan_world = Return r
       /\ no2_value r = Some (PStr "nan").
Proof.
  assert (Hred : result reduction nan_world = Return S754_nan)
    by (vm_compute; reflexivity).
  split; [exact Hred|].
  destruct (C10_nan_is_reported_live nan_world Hred) as (r & Hr & _ & _ & _ & Hv).
  exists r. split; assumption.
Defined.


(** The mock report is returned by the handler only: an [Exception] was
    raised in the [try] body. *)
Lemma mock_needs_a_raise (w : World) :
  result fetch_california_data w = Return mock_data ->
  exists e, In (EvRaise e) (trace live_pipeline w)
            /\ exc_is_Exception e = true.
Proof.
  intros H. rewrite fetch_result in H.
  pose proof (live_pipeline_trace w) as Ht.
  pose proof (live_of_reduction w) as Hl.
  destruct (result live_pipeline w) as [r|e].
  - exfalso. injection H as ->.
    destruct (result reduction w) as [x|e]; [|discriminate Hl].
    injection Hl as Hl. symmetry in Hl. exact (mock_is_not_live _ _ Hl).
  - destruct Ht as (new & E & _). exists e. rewrite E.
    split; [left; reflexivity|].
    destruct (exc_is_Exception e); [reflexivity | discriminate H].
Qed.



(* ===================================================================== *)
(** ** Acquisition *)
(* ===================================================================== *)

Example granule_name_listings :
  fnmatch "OMI-Aura_L3*.he5" granule_name = true
  /\ fnmatch "OMI-Aura_L3.*he5" granule_name = false
  /\ fnmatch "OMI-Aura_L3*.he5" dotted_name = true
  /\ fnmatch "OMI-Aura_L3.*he5" dotted_name = true.
Proof. repeat split. Qed.

(** The download is skipped as soon as the first listing finds a file. *)
Lemma download_skipped (w : World) :
  glob_in (w_cache w) "tempo_data/OMI-Aura_L3.*he5" <> [] ->
  existsb is_download (trace acquire w) = false.
Proof.
  intros Hne. exec_acquire w; try reflexivity; congruence.
Qed.

(** C4. The second of two requests downloads again, although the directory
    the first one left holds a file that the listing of line 58 finds: the
    listing of line 55, which guards the download, asks for a dot after
    [OMI-Aura_L3] and does not find it. *)
Theorem C4_second_request_downloads_again :
  w_cache second_request = [granule_name]
  /\ glob_in (w_cache second_request) "tempo_data/OMI-Aura_L3*.he5"
     = ["tempo_data/" ++ granule_name]
  /\ glob_in (w_cache second_request) "tempo_data/OMI-Aura_L3.*he5" = []
  /\ filter is_download (trace fetch_california_data second_request)
     = [EvDownload [granule_name] "tempo_data"].
Proof. vm_compute. repeat split. Qed.




(* ===================================================================== *)
(** ** The grid *)
(* ===================================================================== *)

Lemma Qlist_eqb_Forall2 (l1 l2 : list Q) :
  Qlist_eqb l1 l2 = true -> Forall2 Qeq l1 l2.
Proof.
  revert l2. induction l1 as [|a l1 IH]; intros [|b l2] H;
    try discriminate H; constructor.
  - apply Qeq_bool_iff. cbn [Qlist_eqb] in H.
    apply andb_true_iff in H. apply H.
  - apply IH. cbn [Qlist_eqb] in H. apply andb_true_iff in H. apply H.
Qed.

Lemma lat_is_the_grid : Forall2 Qeq lat (grid (-89.875) 0.25 720).
Proof. apply Qlist_eqb_Forall2. vm_compute. reflexivity. Qed.

Lemma lon_is_the_grid : Forall2 Qeq lon (grid (-179.875) 0.25 1440).
Proof. apply Qlist_eqb_Forall2. vm_compute. reflexivity. Qed.

(** Every sample is a multiple of 1/8 below 2^11 in size, so the binary64
    arithmetic of [numpy] is exact on the two grids. *)
Lemma grid_exact_in_binary64 :
  forallb (fun v => Qeq_bool (inject_Z (Qfloor (8 * v))) (8 * v)
                    && (Z.abs (Qfloor (8 * v)) <? 2 ^ 11)%Z)
          (lat ++ lon)%list = true.
Proof. vm_compute. reflexivity. Qed.

(** C9. Whatever the world answers, the coordinates the function puts on
    the combined dataset are the fixed 0.25-degree grid: 720 latitudes
    [-89.875 + 0.25 i] ending at 89.875 and 1440 longitudes
    [-179.875 + 0.25 i] ending at 179.875. *)
Theorem C9_fixed_grid (w : World) (ds : Dataset) (la lo : list Q) :
  In (EvAssignCoords ds la lo) (trace fetch_california_data w) ->
  la = lat /\ lo = lon
  /\ List.length la = 720%nat /\ List.length lo = 1440%nat
  /\ Forall2 Qeq la (grid (-89.875) 0.25 720)
  /\ Forall2 Qeq lo (grid (-179.875) 0.25 1440)
  /\ (hd 0 la == -89.875)%Q /\ last la 0%Q = 89.875%Q
  /\ (hd 0 lo == -179.875)%Q /\ last lo 0%Q = 179.875%Q.
Proof.
  intros Hin.
  assert (Hplain : plain (EvAssignCoords ds la lo)).
  { assert (Hlive : In (EvAssignCoords ds la lo) (trace live_pipeline w)).
    { destruct (fetch_trace w) as [E|[[line E]|[e E]]]; rewrite E in Hin;
        [exact Hin| |];
        (destruct Hin as [H|H]; [discriminate H | exact H]). }
    pose proof (live_pipeline_trace w) as Ht.
    destruct (result live_pipeline w) as [r|e].
    - rewrite Forall_forall in Ht. exact (Ht _ Hlive).
    - destruct Ht as (new & E & F). rewrite E in Hlive.
      destruct Hlive as [H|H]; [discriminate H|].
      rewrite Forall_forall in F. exact (F _ H). }
  destruct Hplain as [-> ->].
  split; [reflexivity|]. split; [reflexivity|].
  split; [vm_compute; reflexivity|]. split; [vm_compute; reflexivity|].
  split; [exact lat_is_the_grid|]. split; [exact lon_is_the_grid|].
  split; [vm_compute; reflexivity|]. split; [vm_compute; reflexivity|].
  split; vm_compute; reflexivity.
Qed.

Lemma C9_witness :
  In (EvAssignCoords (DatasetRef 0) lat lon)
     (trace fetch_california_data first_request)
  /\ List.length lat = 720%nat /\ List.length lon = 1440%nat.
Proof.
  assert (Hin : In (EvAssignCoords (DatasetRef 0) lat lon)
                   (trace fetch_california_data first_request))
    by (rewrite first_request_trace; cbn [In]; auto 10).
  split; [exact Hin|].
  destruct (C9_fixed_grid first_request (DatasetRef 0) lat lon Hin)
    as (_ & _ & Hla & Hlo & _).
  split; assumption.
Defined.

(* ===================================================================== *)
(** ** Formatting, on examples *)
(* ===================================================================== *)

Example format_threshold : format_2e HIGH_RISK_THRESHOLD = "1.60e-09".
Proof. vm_compute. reflexivity. Qed.

(** 1.125, a tie, goes to the even digit. *)
Example format_tie : format_2e (S754_finite false 9 (-3)) = "1.12e+00".
Proof. vm_compute. reflexivity. Qed.

Example format_negative : format_2e (S754_finite true 11 (-3)) = "-1.38e+00".
Proof. vm_compute. reflexivity. Qed.

(** 9995 rounds up into the next decade. *)
Example format_carry : format_2e (S754_finite false 9995 0) = "1.00e+04".
Proof. vm_compute. reflexivity. Qed.

Example format_largest :
  format_2e (S754_finite false 9007199254740991 971) = "1.80e+308".
Proof. vm_compute. reflexivity. Qed.

Example format_subnormal :
  format_2e (S754_finite false 2024 (-1074)) = "1.00e-320".
Proof. vm_compute. reflexivity. Qed.

Example format_specials :
  format_2e S754_nan = "nan"
  /\ format_2e (S754_infinity false) = "inf"
  /\ format_2e (S754_infinity true) = "-inf"
  /\ format_2e (S754_zero true) = "-0.00e+00".
Proof. repeat split. Qed.

(* ===================================================================== *)
(** ** More on the traces *)
(* ===================================================================== *)

Section MoreTraces.

Variable P : event -> Prop.

Lemma logs_only_ret {A} (a : A) : logs_only P (ret a).
Proof. intros w st. exists []. split; [reflexivity | constructor]. Qed.

Lemma logs_only_print (line : string) :
  P (EvPrint line) -> (forall e, P (EvRaise e)) -> logs_only P (print line).
Proof.
  intros H Hr w st. unfold print.
  destruct (stdout_answer w line) as [[]|e].
  - exists [EvPrint line]. split; [reflexivity | auto].
  - exists [EvRaise e]. split; [reflexivity | auto].
Qed.

Lemma logs_only_strftime (fmt : string) : logs_only P (time_strftime fmt).
Proof. intros w st. exists []. split; [reflexivity | constructor]. Qed.

Lemma logs_only_extern {A} (ev : event) (answer : World -> outcome A) :
  P ev -> (forall e, P (EvRaise e)) -> logs_only P (extern ev answer).
Proof.
  intros Hev Hr w st. unfold extern.
  destruct (answer w) as [a|e].
  - exists [ev]. split; [reflexivity | auto].
  - exists [EvRaise e; ev]. split; [reflexivity | auto].
Qed.

Lemma logs_only_bind {A B} (m : M A) (f : A -> M B) :
  logs_only P m -> (forall a, logs_only P (f a)) -> logs_only P (bind m f).
Proof.
  intros Hm Hf w st. unfold bind.
  destruct (Hm w st) as (n1 & E1 & F1).
  destruct (m w st) as [[a|e] st1]; cbn [snd] in *.
  - destruct (Hf a w st1) as (n2 & E2 & F2).
    exists (n2 ++ n1)%list. rewrite E2, E1, app_assoc.
    split; [reflexivity | apply Forall_app; split; assumption].
  - exists n1. split; assumption.
Qed.

End MoreTraces.

(* ===================================================================== *)
(** ** Acquisition, step by step *)
(* ===================================================================== *)

Section Acquisition.

Lemma acquire_downloads_once (w : World) :
  (List.length (filter is_download (trace acquire w)) <= 1)%nat.
Proof. exec_acquire w; cbn; lia. Qed.

Lemma acquire_never_opens (w : World) :
  existsb is_open (trace acquire w) = false.
Proof. exec_acquire w; reflexivity. Qed.

Lemma acquire_returns (w : World) (files : list string) :
  result acquire w = Return files ->
  files = glob_in (st_cache (snd (run acquire w))) files_pattern
  /\ files <> [].
Proof.
  intros H. exec_acquire w; try discriminate H;
    injection H as <-; rewrite ?Hfiles; split; (reflexivity || discriminate).
Qed.

End Acquisition.

(* ===================================================================== *)
(** ** What the listings match *)
(* ===================================================================== *)

Section Matching.

Lemma fnmatch_literal_cons (c : ascii) (pat name : string) :
  is_literal c = true ->
  fnmatch (String c pat) name
  = match name with
    | EmptyString => false
    | String d name' => Ascii.eqb c d && fnmatch pat name'
    end.
Proof.
  intros H.
  destruct c as [[] [] [] [] [] [] [] []]; try reflexivity; discriminate H.
Qed.

Lemma fnmatch_star_cons (pat : string) (d : ascii) (name : string) :
  fnmatch (String "*" pat) (String d name)
  = fnmatch pat (String d name) || fnmatch (String "*" pat) name.
Proof. reflexivity. Qed.

Lemma fnmatch_star_nil (pat : string) :
  fnmatch (String "*" pat) EmptyString = fnmatch pat EmptyString.
Proof. cbn. apply orb_false_r. Qed.

(** A star takes any beginning of the name. *)
Lemma fnmatch_star (pat name : string) :
  fnmatch (String "*" pat) name = true
  <-> exists pre suf, name = pre ++ suf /\ fnmatch pat suf = true.
Proof.
  induction name as [|d name IH].
  - rewrite fnmatch_star_nil. split.
    + intros H. exists EmptyString, EmptyString. auto.
    + intros (pre & suf & E & H).
      destruct pre; [|discriminate E]. cbn in E. subst suf. exact H.
  - rewrite fnmatch_star_cons, orb_true_iff, IH. split.
    + intros [H|(pre & suf & E & H)].
      * exists EmptyString, (String d name). auto.
      * exists (String d pre), suf. cbn. rewrite E. auto.
    + intros (pre & suf & E & H). destruct pre as [|c pre].
      * cbn in E. subst suf. left. exact H.
      * cbn in E. injection E as -> ->. right. exists pre, suf. auto.
Qed.

Lemma fnmatch_literal (lit name : string) :
  all_literal lit = true ->
  fnmatch lit name = true <-> name = lit.
Proof.
  revert name. induction lit as [|c lit IH]; intros name Hl.
  - destruct name; cbn; split; congruence.
  - cbn [all_literal] in Hl. apply andb_true_iff in Hl. destruct Hl as [Hc Hl].
    rewrite fnmatch_literal_cons by exact Hc.
    destruct name as [|d name]; [split; discriminate|].
    rewrite andb_true_iff, (IH name Hl). split.
    + intros [E ->]. apply Ascii.eqb_eq in E. subst d. reflexivity.
    + intros E. injection E as -> ->. split; [apply Ascii.eqb_refl | reflexivity].
Qed.

Lemma fnmatch_literal_app (lit pat name : string) :
  all_literal lit = true ->
  fnmatch (lit ++ pat) name = true
  <-> exists rest, name = lit ++ rest /\ fnmatch pat rest = true.
Proof.
  revert name. induction lit as [|c lit IH]; intros name Hl.
  - cbn [append]. split.
    + intros H. exists name. auto.
    + intros (rest & -> & H). exact H.
  - cbn [all_literal] in Hl. apply andb_true_iff in Hl. destruct Hl as [Hc Hl].
    cbn [append]. rewrite fnmatch_literal_cons by exact Hc.
    destruct name as [|d name].
    + split; [discriminate | intros (rest & E & _); discriminate E].
    + rewrite andb_true_iff, (IH name Hl). split.
      * intros [E (rest & -> & H)]. apply Ascii.eqb_eq in E. subst d.
        exists rest. auto.
      * intros (rest & E & H). injection E as -> ->.
        split; [apply Ascii.eqb_refl | exists rest; auto].
Qed.

Lemma fnmatch_before_star_after (before after name : string) :
  all_literal before = true -> all_literal after = true ->
  fnmatch (before ++ String "*" after) name = true
  <-> exists middle, name = before ++ middle ++ after.
Proof.
  intros Hb Ha. rewrite (fnmatch_literal_app before _ name Hb). split.
  - intros (rest & -> & H). apply fnmatch_star in H.
    destruct H as (pre & suf & -> & H). apply (fnmatch_literal after suf Ha) in H.
    subst suf. exists pre. reflexivity.
  - intros (middle & ->). exists (middle ++ after). split; [reflexivity|].
    apply fnmatch_star. exists middle, after. split; [reflexivity|].
    apply fnmatch_literal; [exact Ha | reflexivity].
Qed.

(** X21. For [fnmatch], a pattern [before*after] whose two parts have no
    star, no question mark and no opening bracket matches the names that
    begin with [before] and go on with something that ends with [after],
    and only them. *)
Theorem fnmatch_one_star (before after name : string) :
  all_literal before = true -> all_literal after = true ->
  fnmatch (before ++ String "*" after) name = true
  <-> exists middle, name = before ++ middle ++ after.
Proof. exact (fnmatch_before_star_after before after name). Qed.

Lemma glob_in_files (names : list string) (path : string) :
  In path (glob_in names files_pattern)
  <-> exists middle,
        path = "tempo_data/OMI-Aura_L3" ++ middle ++ ".he5"
        /\ In ("OMI-Aura_L3" ++ middle ++ ".he5") names.
Proof.
  unfold glob_in, files_pattern.
  cbn [strip_prefix cache_dir append Ascii.eqb Bool.eqb is_hidden].
  rewrite in_map_iff. split.
  - intros (n & <- & Hin). apply filter_In in Hin. destruct Hin as [Hin Hm].
    apply filter_In in Hin. destruct Hin as [Hin _].
    apply (fnmatch_before_star_after "OMI-Aura_L3" ".he5" n eq_refl eq_refl) in Hm.
    destruct Hm as (middle & ->). exists middle. split; [reflexivity | exact Hin].
  - intros (middle & -> & Hin). exists ("OMI-Aura_L3" ++ middle ++ ".he5").
    split; [reflexivity|]. apply filter_In.
    split; [apply filter_In; split; [exact Hin | reflexivity]|].
    apply (fnmatch_before_star_after "OMI-Aura_L3" ".he5" _ eq_refl eq_refl).
    exists middle. reflexivity.
Qed.

Lemma glob_in_guard (names : list string) (path : string) :
  In path (glob_in names guard_pattern)
  <-> exists middle,
        path = "tempo_data/OMI-Aura_L3." ++ middle ++ "he5"
        /\ In ("OMI-Aura_L3." ++ middle ++ "he5") names.
Proof.
  unfold glob_in, guard_pattern.
  cbn [strip_prefix cache_dir append Ascii.eqb Bool.eqb is_hidden].
  rewrite in_map_iff. split.
  - intros (n & <- & Hin). apply filter_In in Hin. destruct Hin as [Hin Hm].
    apply filter_In in Hin. destruct Hin as [Hin _].
    apply (fnmatch_before_star_after "OMI-Aura_L3." "he5" n eq_refl eq_refl) in Hm.
    destruct Hm as (middle & ->). exists middle. split; [reflexivity | exact Hin].
  - intros (middle & -> & Hin). exists ("OMI-Aura_L3." ++ middle ++ "he5").
    split; [reflexivity|]. apply filter_In.
    split; [apply filter_In; split; [exact Hin | reflexivity]|].
    apply (fnmatch_before_star_after "OMI-Aura_L3." "he5" _ eq_refl eq_refl).
    exists middle. reflexivity.
Qed.

Lemma fnmatch_one_star_witness :
  all_literal "OMI-Aura_L3" = true /\ all_literal ".he5" = true
  /\ (fnmatch "OMI-Aura_L3*.he5" granule_name = true
      <-> exists middle, granule_name = "OMI-Aura_L3" ++ middle ++ ".he5").
Proof.
  split; [reflexivity|]. split; [reflexivity|].
  exact (fnmatch_one_star "OMI-Aura_L3" ".he5" granule_name eq_refl eq_refl).
Defined.

End Matching.

(* ===================================================================== *)
(** ** The order of the calls *)
(* ===================================================================== *)

Section CallOrder.

Lemma after_acquire_logs (files : list string) :
  logs_only (after_acquire files) (bind (reduce files) shape).
Proof.
  unfold reduce, shape, xr_open_mfdataset, assign_coords, sel, mean_item.
  repeat first
    [ apply logs_only_bind; [|intro]
    | apply logs_only_print; [exact I | intro; exact I]
    | apply logs_only_extern; [cbn; auto | intro; exact I]
    | apply logs_only_strftime
    | apply logs_only_ret ].
Qed.

(** The log of the live path is the log of the acquisition, followed, when
    it returns [files], by events of the processing of [files]. *)
Lemma live_pipeline_split (w : World) :
  match result acquire w with
  | Return files =>
      exists rest, trace live_pipeline w = (rest ++ trace acquire w)%list
                   /\ Forall (after_acquire files) rest
  | Raise _ => trace live_pipeline w = trace acquire w
  end.
Proof.
  unfold result, trace, run, live_pipeline.
  change (bind acquire (fun files => bind (reduce files) (fun x => shape x))
               w (init_state w))
    with (match acquire w (init_state w) with
          | (Return files, st1) => bind (reduce files) shape w st1
          | (Raise e, st1) => (Raise e, st1)
          end).
  destruct (acquire w (init_state w)) as [[files|e] st1]; cbn [fst snd];
    [|reflexivity].
  apply after_acquire_logs.
Qed.

Lemma fetch_trace_In (w : World) (ev : event) :
  is_print ev = false -> is_raise ev = false ->
  In ev (trace fetch_california_data w) -> In ev (trace live_pipeline w).
Proof.
  intros Hp Hr Hin.
  destruct (fetch_trace w) as [E|[[line E]|[e E]]]; rewrite E in Hin;
    [exact Hin| |];
    (destruct Hin as [<-|Hin]; [discriminate | exact Hin]).
Qed.

(** X1. The dataset is only ever opened on the files the acquisition
    returned: every entry of the directory that the listing of line 58
    finds once the download step is over, whether the query returned it or
    not; a list that is not empty, of paths [tempo_data/OMI-Aura_L3...he5]. *)
Theorem opened_files (w : World) (files : list string) :
  In (EvOpen files) (trace fetch_california_data w) ->
  result acquire w = Return files
  /\ files = glob_in (st_cache (snd (run acquire w))) files_pattern
  /\ files <> []
  /\ Forall (fun path => exists middle,
               path = "tempo_data/OMI-Aura_L3" ++ middle ++ ".he5") files.
Proof.
  intros Hin. apply fetch_trace_In in Hin; [|reflexivity|reflexivity].
  pose proof (live_pipeline_split w) as Hs.
  pose proof (acquire_never_opens w) as Hno.
  assert (Hacq : ~ In (EvOpen files) (trace acquire w)).
  { intros H. assert (existsb is_open (trace acquire w) = true)
      by (apply existsb_exists; exists (EvOpen files); auto).
    congruence. }
  destruct (result acquire w) as [files0|e] eqn:Hres.
  - destruct Hs as (rest & E & F). rewrite E in Hin.
    apply in_app_or in Hin. destruct Hin as [Hin|Hin]; [|contradiction].
    rewrite Forall_forall in F. specialize (F _ Hin). cbn in F. subst files0.
    destruct (acquire_returns w files Hres) as [Efiles Hne].
    split; [reflexivity|]. split; [exact Efiles|]. split; [exact Hne|].
    apply Forall_forall. intros path Hpath. rewrite Efiles in Hpath.
    apply glob_in_files in Hpath. destruct Hpath as (middle & -> & _).
    exists middle. reflexivity.
  - rewrite Hs in Hin. contradiction.
Qed.

Lemma opened_files_witness :
  In (EvOpen ["tempo_data/" ++ granule_name])
     (trace fetch_california_data first_request)
  /\ result acquire first_request = Return ["tempo_data/" ++ granule_name].
Proof.
  assert (Hin : In (EvOpen ["tempo_data/" ++ granule_name])
                   (trace fetch_california_data first_request))
    by (rewrite first_request_trace; cbn [In]; auto 10).
  split; [exact Hin|].
  exact (proj1 (opened_files first_request _ Hin)).
Defined.

(** X2. One request calls [earthaccess.download] at most once, whatever
    the collaborators answer. *)
Theorem downloads_at_most_once (w : World) :
  (List.length (filter is_download (trace fetch_california_data w)) <= 1)%nat.
Proof.
  assert (Hlive : (List.length (filter is_download (trace live_pipeline w))
                   <= 1)%nat).
  { pose proof (live_pipeline_split w) as Hs.
    pose proof (acquire_downloads_once w) as Ha.
    destruct (result acquire w) as [files|e].
    - destruct Hs as (rest & E & F). rewrite E, filter_app, length_app.
      assert (Hrest : filter is_download rest = []).
      { clear E. induction F as [|ev rest Hev _ IH]; [reflexivity|].
        cbn [filter]. destruct ev; cbn in Hev |- *; try exact IH.
        destruct Hev. }
      rewrite Hrest. exact Ha.
    - rewrite Hs. exact Ha. }
  destruct (fetch_trace w) as [E|[[line E]|[e E]]]; rewrite E; exact Hlive.
Qed.

Lemma acquire_download_request (w : World) (granules : list string)
    (dir : string) :
  In (EvDownload granules dir) (trace acquire w) ->
  w_search w "OMNO2d" (START_DATE, END_DATE) BBOX = Return granules
  /\ dir = "tempo_data"
  /\ glob_in (w_cache w) guard_pattern = [].
Proof.
  intros Hin. exec_acquire w; cbn [In] in Hin;
    repeat (destruct Hin as [Hin|Hin]; [try discriminate Hin|]);
    try contradiction;
    injection Hin as <- <-; auto.
Qed.

(** X22. A download is only ever asked for the granules the query has just
    returned, into [tempo_data], and only when the listing of line 55 found
    nothing in the directory. *)
Theorem download_request (w : World) (granules : list string) (dir : string) :
  In (EvDownload granules dir) (trace fetch_california_data w) ->
  w_search w "OMNO2d" (START_DATE, END_DATE) BBOX = Return granules
  /\ dir = "tempo_data"
  /\ glob_in (w_cache w) guard_pattern = [].
Proof.
  intros Hin. apply fetch_trace_In in Hin; [|reflexivity|reflexivity].
  apply acquire_download_request.
  pose proof (live_pipeline_split w) as Hs.
  destruct (result acquire w) as [files|e].
  - destruct Hs as (rest & E & F). rewrite E in Hin.
    apply in_app_or in Hin. destruct Hin as [Hin|Hin]; [|exact Hin].
    rewrite Forall_forall in F. destruct (F _ Hin).
  - rewrite Hs in Hin. exact Hin.
Qed.

Lemma download_request_witness :
  In (EvDownload [granule_name] "tempo_data")
     (trace fetch_california_data first_request)
  /\ glob_in (w_cache first_request) guard_pattern = [].
Proof.
  assert (Hin : In (EvDownload [granule_name] "tempo_data")
                   (trace fetch_california_data first_request))
    by (rewrite first_request_trace; cbn [In]; auto 15).
  split; [exact Hin|].
  exact (proj2 (proj2 (download_request first_request _ _ Hin))).
Defined.

End CallOrder.

(* ===================================================================== *)
(** ** The download guard and the fallback *)
(* ===================================================================== *)

Section Fallback.

Lemma no_download_after_acquire (w : World) :
  filter is_download (trace acquire w) = [] ->
  filter is_download (trace fetch_california_data w) = [].
Proof.
  intros Ha.
  assert (Hlive : filter is_download (trace live_pipeline w) = []).
  { pose proof (live_pipeline_split w) as Hs.
    destruct (result acquire w) as [files|e].
    - destruct Hs as (rest & E & F). rewrite E, filter_app, Ha, app_nil_r.
      clear E. induction F as [|ev rest Hev _ IH]; [reflexivity|].
      cbn [filter]. destruct ev; cbn in Hev |- *; try exact IH.
      destruct Hev.
    - rewrite Hs. exact Ha. }
  destruct (fetch_trace w) as [E|[[line E]|[e E]]]; rewrite E; exact Hlive.
Qed.

(** X3. When the listing of line 55 finds a file in the directory, the
    request never calls [earthaccess.download]. *)
Theorem guard_skips_download (w : World) :
  glob_in (w_cache w) guard_pattern <> [] ->
  filter is_download (trace fetch_california_data w) = [].
Proof.
  intros Hg. apply no_download_after_acquire.
  exec_acquire w; try reflexivity; congruence.
Qed.

Lemma guard_skips_download_witness :
  glob_in (w_cache cached_world) guard_pattern <> []
  /\ filter is_download (trace fetch_california_data cached_world) = [].
Proof.
  assert (H : glob_in (w_cache cached_world) guard_pattern <> [])
    by (vm_compute; discriminate).
  split; [exact H | exact (guard_skips_download cached_world H)].
Defined.



(** X5. When the log-in raises, the request stops there: no query, no
    listing, no download and no file is opened. *)
Theorem login_failure_stops_the_request (w : World) (e : exc) :
  w_login w "environment" = Raise e ->
  result live_pipeline w = Raise e
  /\ trace live_pipeline w = [EvRaise e; EvLogin "environment"].
Proof.
  intros Hl.
  assert (Hacq : result acquire w = Raise e
                 /\ trace acquire w = [EvRaise e; EvLogin "environment"]).
  { clear - Hl. exec_acquire w; try discriminate Hl.
    injection Hl as ->. split; reflexivity. }
  destruct Hacq as [Hres Htr].
  split; [apply live_of_acquire_raise, Hres|].
  pose proof (live_pipeline_split w) as Hs. rewrite Hres in Hs.
  rewrite Hs. exact Htr.
Qed.

Lemma login_failure_stops_the_request_witness :
  w_login (login_raises LoginError) "environment" = Raise LoginError
  /\ trace live_pipeline (login_raises LoginError)
     = [EvRaise LoginError; EvLogin "environment"].
Proof.
  split; [reflexivity|].
  exact (proj2 (login_failure_stops_the_request (login_raises LoginError)
                  LoginError eq_refl)).
Defined.

(** X6. When an [Exception] of the [try] body sends the function to its
    handler, the one thing the handler does before it returns is the
    [print] of line 172, of "Using mock data due to error: " followed by the
    text of that very exception.  When the standard output takes the line,
    it is the last thing done and the mock report is returned; when it
    raises, nothing is printed and what it raises is what the function
    raises. *)
Theorem fallback_prints_the_error (w : World) (e : exc) :
  In (EvRaise e) (trace live_pipeline w) ->
  exc_is_Exception e = true ->
  match stdout_answer w ("Using mock data due to error: " ++ exc_str e) with
  | Return _ =>
      result fetch_california_data w = Return mock_data
      /\ trace fetch_california_data w
         = EvPrint ("Using mock data due to error: " ++ exc_str e)
             :: trace live_pipeline w
  | Raise e' =>
      result fetch_california_data w = Raise e'
      /\ trace fetch_california_data w = EvRaise e' :: trace live_pipeline w
  end.
Proof.
  intros Hin He. apply live_pipeline_raise in Hin.
  unfold result, trace, run, fetch_california_data, try_except_Exception,
    bind, print, ret in *.
  destruct (live_pipeline w (init_state w)) as [[r|e'] st1]; cbn [fst snd] in *;
    [discriminate Hin|].
  injection Hin as ->. rewrite He.
  destruct (stdout_answer w _); split; reflexivity.
Qed.

Lemma fallback_prints_the_error_witness :
  In (EvRaise LoginError) (trace live_pipeline (login_raises LoginError))
  /\ exc_is_Exception LoginError = true
  /\ trace fetch_california_data (login_raises LoginError)
     = EvPrint ("Using mock data due to error: " ++ exc_str LoginError)
         :: trace live_pipeline (login_raises LoginError)
  /\ trace fetch_california_data accented_login_world
     = EvRaise UnicodeEncodeError :: trace live_pipeline accented_login_world.
Proof.
  assert (Hin : In (EvRaise LoginError)
                   (trace live_pipeline (login_raises LoginError)))
    by (simpl; auto).
  split; [exact Hin|]. split; [reflexivity|]. split.
  - assert (Hp : stdout_answer (login_raises LoginError)
                   ("Using mock data due to error: " ++ exc_str LoginError)
                 = Return tt) by reflexivity.
    pose proof (fallback_prints_the_error (login_raises LoginError)
                  LoginError Hin eq_refl) as R.
    rewrite Hp in R. exact (proj2 R).
  - assert (Hin' : In (EvRaise AccentedLoginError)
                      (trace live_pipeline accented_login_world))
      by (simpl; auto).
    assert (Hp : stdout_answer accented_login_world
                   ("Using mock data due to error: "
                    ++ exc_str AccentedLoginError)
                 = Raise UnicodeEncodeError) by reflexivity.
    pose proof (fallback_prints_the_error accented_login_world
                  AccentedLoginError Hin' eq_refl) as R.
    rewrite Hp in R. exact (proj2 R).
Defined.

(** X7. An object raised on the live path that is not an instance of
    [Exception] reaches the caller as it is, and nothing is printed for
    it. *)
Theorem non_Exception_goes_through (w : World) (e : exc) :
  In (EvRaise e) (trace live_pipeline w) ->
  exc_is_Exception e = false ->
  result fetch_california_data w = Raise e
  /\ trace fetch_california_data w = trace live_pipeline w.
Proof.
  intros Hin He. apply live_pipeline_raise in Hin.
  unfold result, trace, run, fetch_california_data, try_except_Exception in *.
  destruct (live_pipeline w (init_state w)) as [[r|e'] st1]; cbn [fst snd] in *;
    [discriminate Hin|].
  injection Hin as ->. rewrite He. split; reflexivity.
Qed.

Lemma non_Exception_goes_through_witness :
  In (EvRaise KeyboardInterrupt)
     (trace live_pipeline (failing_world AtMean KeyboardInterrupt))
  /\ exc_is_Exception KeyboardInterrupt = false
  /\ result fetch_california_data (failing_world AtMean KeyboardInterrupt)
     = Raise KeyboardInterrupt.
Proof.
  assert (Hin : In (EvRaise KeyboardInterrupt)
                   (trace live_pipeline (failing_world AtMean KeyboardInterrupt)))
    by (unfold trace, run; cbn -[lat lon format_2e]; auto 10).
  split; [exact Hin|]. split; [reflexivity|].
  exact (proj1 (non_Exception_goes_through _ _ Hin eq_refl)).
Defined.

(** X8. The mock report is returned exactly when an [Exception] was raised
    in the [try] body and the [print] of line 172 has gone through for it:
    a run without a raise never yields it, and neither does a run whose
    handler cannot print. *)
Theorem mock_only_after_a_raise (w : World) :
  result fetch_california_data w = Return mock_data
  <-> exists e, In (EvRaise e) (trace live_pipeline w)
                /\ exc_is_Exception e = true
                /\ stdout_answer w ("Using mock data due to error: "
                                    ++ exc_str e) = Return tt.
Proof.
  split.
  - intros H. destruct (mock_needs_a_raise w H) as (e & Hin & He).
    exists e. split; [exact Hin|]. split; [exact He|].
    rewrite (fallback_result w e Hin He) in H.
    destruct (stdout_answer w _) as [[]|e']; [reflexivity | discriminate H].
  - intros (e & Hin & He & Hp).
    rewrite (fallback_result w e Hin He), Hp. reflexivity.
Qed.

End Fallback.

(* ===================================================================== *)
(** ** What the page gets *)
(* ===================================================================== *)

Section Reports.

Lemma fetch_returns (w : World) (r : report) :
  result fetch_california_data w = Return r ->
  r = mock_data
  \/ exists x, r = live_report (w_strftime w "%Y-%m-%d") x.
Proof.
  rewrite fetch_result, live_of_reduction.
  destruct (result reduction w) as [x|e].
  - intros H. injection H as <-. right. exists x. reflexivity.
  - destruct (exc_is_Exception e); intros H; [|discriminate H].
    destruct (stdout_answer w _); [|discriminate H].
    injection H as <-. left. reflexivity.
Qed.

(** X9. Every report the function returns, live or mock, has the fields
    the page reads: the five common ones first, with their types, metrics
    made of [name], [value], [unit] and [interpretation], three
    recommendations, and no key twice. *)
Theorem returned_report_is_well_formed (w : World) (r : report) :
  result fetch_california_data w = Return r ->
  well_formed_report r = true.
Proof.
  intros H. destruct (fetch_returns w r H) as [->|(x & ->)].
  - reflexivity.
  - rewrite live_report_fields. reflexivity.
Qed.

Lemma returned_report_is_well_formed_witness :
  result fetch_california_data nan_world
  = Return (live_report "2025-10-05" S754_nan)
  /\ well_formed_report (live_report "2025-10-05" S754_nan) = true.
Proof.
  assert (H : result fetch_california_data nan_world
              = Return (live_report "2025-10-05" S754_nan))
    by (vm_compute; reflexivity).
  split; [exact H | exact (returned_report_is_well_formed nan_world _ H)].
Defined.

(** X10. The classification is monotone: when a finite mean is "HIGH RISK",
    so is every finite mean above it, with the same colour. *)
Theorem classification_is_monotone (today today' : string) (x y : float) :
  is_finite x = true -> is_finite y = true ->
  (float_value x <= float_value y)%Q ->
  dict_get (live_report today x) "risk_level" = Some (PStr "HIGH RISK") ->
  dict_get (live_report today' y) "risk_level" = Some (PStr "HIGH RISK")
  /\ dict_get (live_report today' y) "risk_color_hex" = Some (PStr "#DC2626").
Proof.
  intros Hx Hy Hle. rewrite !live_report_fields.
  cbn [real_data dict_get String.eqb Ascii.eqb Bool.eqb].
  rewrite !risk_level_of_cases, risk_color_hex_of_cases.
  pose proof (float_ge_finite x HIGH_RISK_THRESHOLD Hx eq_refl) as Gx.
  pose proof (float_ge_finite y HIGH_RISK_THRESHOLD Hy eq_refl) as Gy.
  destruct (float_ge x HIGH_RISK_THRESHOLD); [|discriminate].
  intros _.
  assert (Hge : float_ge y HIGH_RISK_THRESHOLD = true).
  { apply Gy. eapply Qle_trans; [|exact Hle]. apply Gx. reflexivity. }
  rewrite Hge. split; reflexivity.
Qed.

Lemma classification_is_monotone_witness :
  (float_value HIGH_RISK_THRESHOLD <= float_value (S754_finite false 1 0))%Q
  /\ dict_get (live_report "2025-10-05" HIGH_RISK_THRESHOLD) "risk_level"
     = Some (PStr "HIGH RISK")
  /\ dict_get (live_report "2025-10-05" (S754_finite false 1 0)) "risk_level"
     = Some (PStr "HIGH RISK").
Proof.
  assert (Hle : (float_value HIGH_RISK_THRESHOLD
                 <= float_value (S754_finite false 1 0))%Q)
    by (vm_compute; discriminate).
  assert (Hhigh : dict_get (live_report "2025-10-05" HIGH_RISK_THRESHOLD)
                           "risk_level" = Some (PStr "HIGH RISK"))
    by (vm_compute; reflexivity).
  split; [exact Hle|]. split; [exact Hhigh|].
  exact (proj1 (classification_is_monotone "2025-10-05" "2025-10-05"
                  HIGH_RISK_THRESHOLD (S754_finite false 1 0)
                  eq_refl eq_refl Hle Hhigh)).
Defined.

(** X11. The value of the NO2 metric of a live report is in scientific
    notation exactly when the mean is finite, and it is "nan" exactly when
    the mean is a NaN: a reader of the report can tell. *)
Theorem value_tells_finiteness (today : string) (x : float) :
  exists v,
    no2_value (live_report today x) = Some (PStr v)
    /\ is_sci2 v = is_finite x
    /\ (v = "nan" <-> is_nan x = true).
Proof.
  exists (format_2e x). rewrite live_report_fields.
  split; [reflexivity|].
  assert (Hfin : is_finite x = true -> is_sci2 (format_2e x) = true)
    by apply format_2e_shape.
  destruct x as [s|s| |s m e].
  - split; [rewrite Hfin; reflexivity|].
    split; [|discriminate]. intros E.
    pose proof (Hfin eq_refl) as H. rewrite E in H. discriminate H.
  - destruct s; (split; [reflexivity | split; discriminate]).
  - split; [reflexivity | split; reflexivity].
  - split; [rewrite Hfin; reflexivity|].
    split; [|discriminate]. intros E.
    pose proof (Hfin eq_refl) as H. rewrite E in H. discriminate H.
Qed.

End Reports.

(* ===================================================================== *)
(** ** The grid in binary64 *)
(* ===================================================================== *)

Section Linspace.

Lemma linspace_unfold (start stop : Q) (num : nat) :
  (2 <= num)%nat ->
  linspace start stop num
  = (map (fun i => (inject_Z (Z.of_nat i)
                    * ((stop - start) / inject_Z (Z.of_nat (num - 1)))
                    + start)%Q)
         (seq 0 (num - 1)) ++ [stop])%list.
Proof.
  intros Hn. unfold linspace.
  destruct (Nat.ltb_spec 1 num) as [_|H]; [|lia].
  f_equal. rewrite firstn_map. f_equal.
  replace num with ((num - 1) + 1)%nat at 2 by lia.
  rewrite seq_app, firstn_app, length_seq, Nat.sub_diag, firstn_O, app_nil_r.
  apply firstn_all2. rewrite length_seq. lia.
Qed.

Lemma linspace_nth (start stop : Q) (num i : nat) :
  (2 <= num)%nat -> (i < num)%nat ->
  (nth i (linspace start stop num) 0
   == start + inject_Z (Z.of_nat i)
              * ((stop - start) / inject_Z (Z.of_nat (num - 1))))%Q.
Proof.
  intros Hn Hi. rewrite (linspace_unfold start stop num Hn).
  set (f := fun i : nat => (inject_Z (Z.of_nat i)
                * ((stop - start) / inject_Z (Z.of_nat (num - 1))) + start)%Q).
  assert (Hlen : List.length (map f (seq 0 (num - 1))) = (num - 1)%nat)
    by (rewrite length_map, length_seq; reflexivity).
  destruct (Nat.lt_ge_cases i (num - 1)) as [Hlt|Hge].
  - rewrite app_nth1 by lia.
    rewrite (nth_indep _ 0%Q (f 0%nat)) by lia.
    rewrite map_nth, seq_nth by lia. unfold f. cbn [Nat.add]. ring.
  - assert (i = (num - 1)%nat) by lia. subst i.
    rewrite app_nth2 by lia. rewrite Hlen, Nat.sub_diag. cbn [nth].
    assert (Hnz : ~ (inject_Z (Z.of_nat (num - 1)) == 0)%Q).
    { apply inject_Z_nonzero. lia. }
    field. exact Hnz.
Qed.

Lemma linspace_Q_increasing (start stop : Q) (num i j : nat) :
  (start < stop)%Q -> (i < j)%nat -> (j < num)%nat ->
  (nth i (linspace start stop num) 0 < nth j (linspace start stop num) 0)%Q.
Proof.
  intros Hlt Hij Hj.
  rewrite (linspace_nth start stop num i) by lia.
  rewrite (linspace_nth start stop num j) by lia.
  assert (Hd : (0 < inject_Z (Z.of_nat (num - 1)))%Q)
    by (apply inject_Z_pos; lia).
  assert (Hstep : (0 < (stop - start) / inject_Z (Z.of_nat (num - 1)))%Q).
  { apply Qlt_shift_div_l; [exact Hd|]. lra. }
  assert (Hq : (inject_Z (Z.of_nat i) < inject_Z (Z.of_nat j))%Q)
    by (rewrite <- Zlt_Qlt; lia).
  revert Hstep Hq.
  generalize ((stop - start) / inject_Z (Z.of_nat (num - 1)))%Q as step.
  generalize (inject_Z (Z.of_nat i)) as a. generalize (inject_Z (Z.of_nat j)) as b.
  intros b a step Hstep Hq. nra.
Qed.

(** The samples that [numpy] computes in binary64 are the rationals of
    [lat] and [lon]: no operation rounds on these two grids. *)
Lemma lat_in_binary64 :
  forallb is_finite np_lat = true
  /\ Forall2 Qeq (map float_value np_lat) lat.
Proof.
  split; [vm_compute; reflexivity|].
  apply Qlist_eqb_Forall2. vm_compute. reflexivity.
Qed.

Lemma lon_in_binary64 :
  forallb is_finite np_lon = true
  /\ Forall2 Qeq (map float_value np_lon) lon.
Proof.
  split; [vm_compute; reflexivity|].
  apply Qlist_eqb_Forall2. vm_compute. reflexivity.
Qed.

Lemma Forall2_Qeq_nth (l1 l2 : list Q) :
  Forall2 Qeq l1 l2 -> forall i, (nth i l1 0 == nth i l2 0)%Q.
Proof.
  induction 1 as [|a b l1 l2 Hab _ IH]; intros [|i]; cbn [nth];
    try reflexivity; [exact Hab | apply IH].
Qed.

Lemma float_value_nth (l : list float) (i : nat) :
  float_value (nth i l S754_nan) = nth i (map float_value l) 0%Q.
Proof.
  change 0%Q with (float_value S754_nan). symmetry. apply map_nth.
Qed.

(** X12. On the two calls of lines 107-108, [np.linspace] computed in
    binary64 as the library does gives 720 and 1440 finite numbers that are
    exactly [-89.875 + 0.25 i] and [-179.875 + 0.25 i], the rationals of
    [lat] and [lon]: nothing is rounded.  This is particular to such
    grids: the second of the four samples from 0 to 1 is not 1/3. *)
Theorem np_linspace_is_exact_on_the_grids :
  List.length np_lat = 720%nat /\ List.length np_lon = 1440%nat
  /\ forallb is_finite (np_lat ++ np_lon) = true
  /\ Forall2 Qeq (map float_value np_lat) (grid (-89.875) 0.25 720)
  /\ Forall2 Qeq (map float_value np_lon) (grid (-179.875) 0.25 1440)
  /\ Forall2 Qeq (map float_value np_lat) lat
  /\ Forall2 Qeq (map float_value np_lon) lon
  /\ ~ (float_value (nth 1 (np_linspace (binary64_of 0 0) (binary64_of 1 0) 4)
                         S754_nan) == 1 # 3)%Q.
Proof.
  split; [vm_compute; reflexivity|]. split; [vm_compute; reflexivity|].
  split; [vm_compute; reflexivity|].
  split; [apply Qlist_eqb_Forall2; vm_compute; reflexivity|].
  split; [apply Qlist_eqb_Forall2; vm_compute; reflexivity|].
  split; [apply lat_in_binary64|]. split; [apply lon_in_binary64|].
  vm_compute. discriminate.
Qed.

(** X13. The latitudes and the longitudes that [np.linspace] computes in
    binary64 on lines 107-108 are strictly increasing, as coordinates that
    are cut by [slice] on lines 118-121 have to be. *)
Theorem grid_samples_increase (i j : nat) :
  (i < j)%nat ->
  ((j < 720)%nat ->
   (float_value (nth i np_lat S754_nan)
    < float_value (nth j np_lat S754_nan))%Q)
  /\ ((j < 1440)%nat ->
      (float_value (nth i np_lon S754_nan)
       < float_value (nth j np_lon S754_nan))%Q).
Proof.
  intros Hij. split; intros Hj; rewrite !float_value_nth.
  - rewrite !(Forall2_Qeq_nth _ _ (proj2 lat_in_binary64)).
    apply linspace_Q_increasing; [reflexivity | exact Hij | exact Hj].
  - rewrite !(Forall2_Qeq_nth _ _ (proj2 lon_in_binary64)).
    apply linspace_Q_increasing; [reflexivity | exact Hij | exact Hj].
Qed.

Lemma grid_samples_increase_witness :
  (0 < 719)%nat
  /\ (float_value (nth 0 np_lat S754_nan)
      < float_value (nth 719 np_lat S754_nan))%Q.
Proof.
  assert (H : (0 < 719)%nat) by lia.
  split; [exact H|].
  exact (proj1 (grid_samples_increase 0 719 H) ltac:(lia)).
Defined.

End Linspace.

(* ===================================================================== *)
(** ** The route [/california-model] *)
(* ===================================================================== *)

Section Routes.

Variable render : renderer.

(** The handler of line 210 on the exception [e]: the [print] of line 212,
    then [abort(500)]. *)
Lemma route_handler_run (w : World) (st : state) (e : exc) :
  route_handler e w st
  = match stdout_answer w ("Fatal application error: " ++ exc_str e) with
    | Return _ =>
        (Raise InternalServerError,
         log (EvRaise InternalServerError)
           (log (EvPrint ("Fatal application error: " ++ exc_str e)) st))
    | Raise e' => (Raise e', log (EvRaise e') st)
    end.
Proof.
  unfold route_handler, bind, print, abort_500, raise.
  destruct (stdout_answer w _); reflexivity.
Qed.

(** It never returns a page. *)
Lemma route_handler_raises (w : World) (st : state) (e : exc) :
  exists e', fst (route_handler e w st) = Raise e'.
Proof.
  rewrite route_handler_run. destruct (stdout_answer w _); eexists; reflexivity.
Qed.

Lemma california_model_run (w : World) :
  run (california_model render) w
  = match run fetch_california_data w with
    | (Return data, st) =>
        match render "california_data.html" [("data", data)] with
        | Return page => (Return page, st)
        | Raise e =>
            if exc_is_Exception e
            then route_handler e w (log (EvRaise e) st)
            else (Raise e, log (EvRaise e) st)
        end
    | (Raise e, st) =>
        if exc_is_Exception e then route_handler e w st else (Raise e, st)
    end.
Proof.
  unfold run, california_model, try_except_Exception, bind, render_template.
  destruct (fetch_california_data w (init_state w)) as [[data|e] st].
  - destruct (render "california_data.html" [("data", data)]) as [page|e];
      [reflexivity|].
    destruct (exc_is_Exception e); reflexivity.
  - destruct (exc_is_Exception e); reflexivity.
Qed.

(** What [fetch_california_data] raises is an object that is not an
    [Exception] and comes from the [try] body, or what the [print] of line
    172 raised. *)
Lemma fetch_raise (w : World) (e : exc) :
  result fetch_california_data w = Raise e ->
  (In (EvRaise e) (trace live_pipeline w) /\ exc_is_Exception e = false)
  \/ exists e0,
       In (EvRaise e0) (trace live_pipeline w)
       /\ exc_is_Exception e0 = true
       /\ stdout_answer w ("Using mock data due to error: " ++ exc_str e0)
          = Raise e.
Proof.
  rewrite fetch_result. pose proof (live_pipeline_trace w) as Ht.
  destruct (result live_pipeline w) as [r|e0]; [discriminate|].
  destruct Ht as (new & E & _).
  assert (Hin : In (EvRaise e0) (trace live_pipeline w))
    by (rewrite E; left; reflexivity).
  destruct (exc_is_Exception e0) eqn:He0.
  - destruct (stdout_answer w _) as [u|e'] eqn:Hp; [discriminate|].
    intros H. injection H as <-. right. exists e0. auto.
  - intros H. injection H as <-. left. auto.
Qed.

(** X14. The route returns a page exactly when [fetch_california_data]
    returns a report and the template renders it; the page is the rendering
    of that very report. *)
Theorem page_is_the_rendered_report (w : World) (page : string) :
  result (california_model render) w = Return page
  <-> exists data,
        result fetch_california_data w = Return data
        /\ render "california_data.html" [("data", data)] = Return page.
Proof.
  unfold result. rewrite california_model_run.
  destruct (run fetch_california_data w) as [[data|e] st]; cbn [fst].
  - destruct (render "california_data.html" [("data", data)]) as [p|e] eqn:Hr;
      cbn [fst].
    + split.
      * intros H. injection H as <-. exists data. auto.
      * intros (d & Hd & Hp). injection Hd as <-. congruence.
    + split.
      * destruct (exc_is_Exception e); cbn [fst]; [|discriminate].
        destruct (route_handler_raises w (log (EvRaise e) st) e) as [e' ->].
        discriminate.
      * intros (d & Hd & Hp). injection Hd as <-. congruence.
  - split.
    + destruct (exc_is_Exception e); cbn [fst]; [|discriminate].
      destruct (route_handler_raises w st e) as [e' ->]. discriminate.
    + intros (d & Hd & _). discriminate Hd.
Qed.

(** X15. A failure of a step of the data pipeline does not by itself end in
    [abort(500)].  When the route raises an [Exception], its handler had
    caught an [Exception] that came from the rendering of a report that
    [fetch_california_data] had returned, or from the [print] of line 172
    raising in the handler of [fetch_california_data]; and the route raises
    the exception of [abort(500)] when its own [print], of line 212, goes
    through, and what that [print] raises otherwise. *)
Theorem error_500_comes_from_rendering (w : World) (e : exc) :
  result (california_model render) w = Raise e ->
  exc_is_Exception e = true ->
  exists e',
    exc_is_Exception e' = true
    /\ ((exists data,
           result fetch_california_data w = Return data
           /\ render "california_data.html" [("data", data)] = Raise e')
        \/ (exists e0,
              In (EvRaise e0) (trace live_pipeline w)
              /\ exc_is_Exception e0 = true
              /\ stdout_answer w ("Using mock data due to error: "
                                  ++ exc_str e0) = Raise e'))
    /\ match stdout_answer w ("Fatal application error: " ++ exc_str e') with
       | Return _ => e = InternalServerError
       | Raise e'' => e = e''
       end.
Proof.
  assert (Hh : forall e' st,
            fst (route_handler e' w st) = Raise e ->
            match stdout_answer w ("Fatal application error: "
                                   ++ exc_str e') with
            | Return _ => e = InternalServerError
            | Raise e'' => e = e''
            end).
  { intros e' st. rewrite route_handler_run.
    destruct (stdout_answer w _); cbn [fst]; intros H; injection H as <-;
      reflexivity. }
  pose proof (fetch_raise w) as Hraise.
  unfold result in *. rewrite california_model_run.
  destruct (run fetch_california_data w) as [[data|e0] st]; cbn [fst] in *.
  - destruct (render "california_data.html" [("data", data)]) as [p|e'] eqn:Hr;
      cbn [fst]; [discriminate|].
    destruct (exc_is_Exception e') eqn:He'; cbn [fst]; intros H He.
    + exists e'. split; [exact He'|]. split; [left; exists data; auto|].
      exact (Hh _ _ H).
    + injection H as <-. congruence.
  - destruct (exc_is_Exception e0) eqn:He0; cbn [fst]; intros H He.
    + exists e0. split; [exact He0|]. split; [|exact (Hh _ _ H)].
      right. destruct (Hraise e0 eq_refl) as [[_ Hn]|(e1 & Hin & He1 & Hp)];
        [congruence|].
      exists e1. auto.
    + injection H as <-. congruence.
Qed.

(** X16. When the rendering of the report raises an [Exception], the route
    goes to the [print] of line 212, of "Fatal application error: " with
    the text of that exception.  When the standard output takes the line,
    the route then raises the exception of [abort(500)], and these are the
    last things it does; when the [print] raises, nothing is printed,
    [abort(500)] is not reached and the route raises what the [print]
    raised. *)
Theorem rendering_failure_is_reported (w : World) (data : report) (e : exc) :
  result fetch_california_data w = Return data ->
  render "california_data.html" [("data", data)] = Raise e ->
  exc_is_Exception e = true ->
  match stdout_answer w ("Fatal application error: " ++ exc_str e) with
  | Return _ =>
      result (california_model render) w = Raise InternalServerError
      /\ trace (california_model render) w
         = EvRaise InternalServerError
             :: EvPrint ("Fatal application error: " ++ exc_str e)
             :: EvRaise e :: trace fetch_california_data w
  | Raise e' =>
      result (california_model render) w = Raise e'
      /\ trace (california_model render) w
         = EvRaise e' :: EvRaise e :: trace fetch_california_data w
  end.
Proof.
  unfold result, trace. rewrite california_model_run.
  destruct (run fetch_california_data w) as [[d|e0] st]; cbn [fst snd];
    [|discriminate].
  intros H Hr He. injection H as ->. rewrite Hr, He, route_handler_run.
  destruct (stdout_answer w _); split; reflexivity.
Qed.

(** X17. An object that is not an instance of [Exception] and is raised on
    the live path goes through the two handlers to the server as it is,
    without a line printed by either. *)
Theorem non_Exception_reaches_the_server (w : World) (e : exc) :
  In (EvRaise e) (trace live_pipeline w) ->
  exc_is_Exception e = false ->
  result (california_model render) w = Raise e
  /\ trace (california_model render) w = trace live_pipeline w.
Proof.
  intros Hin He.
  assert (Hrun : result fetch_california_data w = Raise e
                 /\ trace fetch_california_data w = trace live_pipeline w).
  { apply live_pipeline_raise in Hin.
    unfold result, trace, run, fetch_california_data, try_except_Exception in *.
    destruct (live_pipeline w (init_state w)) as [[r|e'] st1];
      cbn [fst snd] in *; [discriminate Hin|].
    injection Hin as ->. rewrite He. split; reflexivity. }
  destruct Hrun as [Hres Htr].
  unfold result, trace in *. rewrite california_model_run.
  destruct (run fetch_california_data w) as [[d|e0] st]; cbn [fst snd] in *;
    [discriminate Hres|].
  injection Hres as ->. rewrite He. cbn [fst snd]. split; [reflexivity | exact Htr].
Qed.

End Routes.

Lemma page_is_the_rendered_report_witness :
  result (california_model easy_templates) (login_raises LoginError)
  = Return "<html>california_data.html</html>".
Proof.
  apply page_is_the_rendered_report. exists mock_data.
  split; vm_compute; reflexivity.
Defined.

Lemma error_500_comes_from_rendering_witness :
  result (california_model strict_templates) (login_raises LoginError)
  = Raise InternalServerError
  /\ exc_is_Exception InternalServerError = true
  /\ exists e',
       exc_is_Exception e' = true
       /\ ((exists data,
              result fetch_california_data (login_raises LoginError)
              = Return data
              /\ strict_templates "california_data.html" [("data", data)]
                 = Raise e')
           \/ (exists e0,
                 In (EvRaise e0)
                    (trace live_pipeline (login_raises LoginError))
                 /\ exc_is_Exception e0 = true
                 /\ stdout_answer (login_raises LoginError)
                      ("Using mock data due to error: " ++ exc_str e0)
                    = Raise e')).
Proof.
  assert (H : result (california_model strict_templates)
                     (login_raises LoginError) = Raise InternalServerError)
    by (vm_compute; reflexivity).
  split; [exact H|]. split; [reflexivity|].
  destruct (error_500_comes_from_rendering strict_templates
              (login_raises LoginError) InternalServerError H eq_refl)
    as (e' & He' & Hfrom & _).
  exists e'. split; assumption.
Defined.

Lemma rendering_failure_is_reported_witness :
  result fetch_california_data (login_raises LoginError) = Return mock_data
  /\ strict_templates "california_data.html" [("data", mock_data)]
     = Raise UndefinedError
  /\ stdout_answer (login_raises LoginError)
       ("Fatal application error: " ++ exc_str UndefinedError) = Return tt
  /\ result (california_model strict_templates) (login_raises LoginError)
     = Raise InternalServerError.
Proof.
  assert (H : result fetch_california_data (login_raises LoginError)
              = Return mock_data) by (vm_compute; reflexivity).
  assert (Hp : stdout_answer (login_raises LoginError)
                 ("Fatal application error: " ++ exc_str UndefinedError)
               = Return tt) by reflexivity.
  split; [exact H|]. split; [reflexivity|]. split; [exact Hp|].
  pose proof (rendering_failure_is_reported strict_templates
                (login_raises LoginError) mock_data UndefinedError
                H eq_refl eq_refl) as R.
  rewrite Hp in R. exact (proj1 R).
Defined.

Lemma non_Exception_reaches_the_server_witness :
  In (EvRaise KeyboardInterrupt)
     (trace live_pipeline (login_raises KeyboardInterrupt))
  /\ exc_is_Exception KeyboardInterrupt = false
  /\ result (california_model easy_templates) (login_raises KeyboardInterrupt)
     = Raise KeyboardInterrupt.
Proof.
  assert (Hin : In (EvRaise KeyboardInterrupt)
                   (trace live_pipeline (login_raises KeyboardInterrupt)))
    by (simpl; auto).
  split; [exact Hin|]. split; [reflexivity|].
  exact (proj1 (non_Exception_reaches_the_server easy_templates
                  (login_raises KeyboardInterrupt) KeyboardInterrupt
                  Hin eq_refl)).
Defined.

(* ===================================================================== *)
(** ** [preprocess_omi_l3] *)
(* ===================================================================== *)

Section Preprocess.

Let grid_names : list (string * string) :=
  [("phony_dim_0", "lat"); ("phony_dim_1", "lon")].

Example preprocess_raw_granule :
  preprocess_omi_l3 raw_granule
  = Some {| xr_variables :=
              map (fun name => (name, [("time", 1%nat); ("lat", 720%nat);
                                       ("lon", 1440%nat)]))
                  ["ColumnAmountNO2"; "ColumnAmountNO2CloudScreened";
                   "ColumnAmountNO2Trop"; "ColumnAmountNO2TropCloudScreened"];
            xr_coord_names := [] |}.
Proof. reflexivity. Qed.

(** Coordinates are renamed along their dimension and get no [time]. *)
Example preprocess_indexed_granule :
  preprocess_omi_l3 indexed_granule
  = Some {| xr_variables :=
              [ ("phony_dim_0", [("lat", 720%nat)]);
                ("phony_dim_1", [("lon", 1440%nat)]);
                ("ColumnAmountNO2Trop",
                 [("time", 1%nat); ("lat", 720%nat); ("lon", 1440%nat)]) ];
            xr_coord_names := ["phony_dim_0"; "phony_dim_1"] |}.
Proof. reflexivity. Qed.

Lemma has_dim_spec (ds : xr_dataset) (d : string) :
  has_dim ds d = true
  <-> exists v, In v (xr_variables ds) /\ In d (map fst (snd v)).
Proof.
  unfold has_dim, xr_dims. rewrite existsb_exists. split.
  - intros (x & Hin & E). apply String.eqb_eq in E. subst x.
    apply in_flat_map in Hin. exact Hin.
  - intros (v & Hv & Hd). exists d. split; [|apply String.eqb_refl].
    apply in_flat_map. exists v. auto.
Qed.

Lemma has_var_spec (ds : xr_dataset) (name : string) :
  has_var ds name = true <-> In name (map fst (xr_variables ds)).
Proof.
  unfold has_var. rewrite existsb_exists, in_map_iff. split.
  - intros (v & Hv & E). apply String.eqb_eq in E. exists v. auto.
  - intros (v & E & Hv). exists v. split; [exact Hv|].
    rewrite E. apply String.eqb_refl.
Qed.

Lemma rename_by_not_phony (d : string) :
  rename_by grid_names d <> "phony_dim_0"
  /\ rename_by grid_names d <> "phony_dim_1".
Proof.
  unfold rename_by, grid_names. cbn [find fst snd].
  destruct (String.eqb_spec "phony_dim_0" d) as [<-|H0];
    [split; discriminate|].
  destruct (String.eqb_spec "phony_dim_1" d) as [<-|H1];
    [split; discriminate|].
  split; congruence.
Qed.

Lemma xr_shape_rename_var (mapping : list (string * string))
    (v : string * xr_variable) :
  xr_shape (rename_var mapping v) = xr_shape v.
Proof.
  unfold xr_shape, rename_var. cbn [snd]. rewrite map_map.
  apply map_ext. reflexivity.
Qed.

Lemma fst_expand_var (ds : xr_dataset) (d : string) (v : string * xr_variable) :
  fst (expand_var ds d v) = fst v.
Proof.
  unfold expand_var.
  destruct (String.eqb (fst v) d); [reflexivity|].
  destruct (is_coord ds (fst v)); reflexivity.
Qed.

(** A name on the list of the coordinates is a coordinate, and a coordinate
    that is a variable is on the list that the next dataset gets. *)
Lemma listed_is_coord (ds : xr_dataset) (name : string) :
  In name (xr_coord_names ds) -> is_coord ds name = true.
Proof.
  intros H. unfold is_coord. apply orb_true_iff. left.
  apply existsb_exists. exists name. split; [exact H | apply String.eqb_refl].
Qed.

Lemma coord_is_listed (ds : xr_dataset) (name : string) :
  is_coord ds name = true -> In name (map fst (xr_variables ds)) ->
  In name (coord_names ds).
Proof. intros Hc Hv. apply filter_In. auto. Qed.

Lemma index_is_coord (ds : xr_dataset) (v : string * xr_variable) :
  In v (xr_variables ds) -> is_index v = true -> is_coord ds (fst v) = true.
Proof.
  intros Hv Hi. unfold is_coord. apply orb_true_iff. right.
  apply existsb_exists. exists v. split; [exact Hv|].
  rewrite String.eqb_refl. exact Hi.
Qed.

Lemma filter_map_fst (g : string * xr_variable -> string * xr_variable)
    (q : string -> bool) (l : list (string * xr_variable)) :
  (forall v, fst (g v) = fst v) ->
  filter (fun v => q (fst v)) (map g l) = map g (filter (fun v => q (fst v)) l).
Proof.
  intros Hg. induction l as [|v l IH]; [reflexivity|].
  cbn [map filter]. rewrite Hg. destruct (q (fst v)); cbn [map]; rewrite IH;
    reflexivity.
Qed.

Lemma filter_absent (name : string) (l : list (string * xr_variable)) :
  existsb (fun v => String.eqb (fst v) name) l = false ->
  filter (fun v => negb (String.eqb (fst v) name)) l = l.
Proof.
  induction l as [|v l IH]; [reflexivity|].
  cbn [existsb filter]. intros H. apply orb_false_iff in H.
  destruct H as [Hv Hl]. rewrite Hv, (IH Hl). reflexivity.
Qed.

Lemma Forall2_map_r {A B} (R : A -> B -> Prop) (h : A -> B) (l : list A) :
  (forall a, In a l -> R a (h a)) -> Forall2 R l (map h l).
Proof.
  induction l as [|a l IH]; intros H; cbn [map]; constructor.
  - apply H. left. reflexivity.
  - apply IH. intros b Hb. apply H. right. exact Hb.
Qed.

(** A variable that is over its own dimension once the grid dimensions are
    renamed was so before, there being no variable [lat] or [lon]. *)
Lemma renamed_index (ds : xr_dataset) (v : string * xr_variable) :
  has_var ds "lat" = false -> has_var ds "lon" = false ->
  In v (xr_variables ds) ->
  is_index (rename_var grid_names v) = true ->
  is_coord ds (fst (rename_var grid_names v)) = true.
Proof.
  intros Hlat Hlon Hv Hi. cbn [rename_var fst].
  assert (Hname : has_var ds (fst v) = true).
  { apply has_var_spec. apply in_map. exact Hv. }
  apply (index_is_coord ds v Hv).
  unfold is_index, rename_var in *. cbn [fst snd] in Hi.
  destruct (snd v) as [|d [|d' dims]]; try discriminate Hi.
  cbn [map fst] in Hi. unfold rename_by, grid_names in Hi.
  cbn [find fst snd] in Hi.
  destruct (String.eqb "phony_dim_0" (fst d)).
  { cbn [snd] in Hi. apply String.eqb_eq in Hi. rewrite <- Hi in Hname.
    congruence. }
  destruct (String.eqb "phony_dim_1" (fst d)).
  { cbn [snd] in Hi. apply String.eqb_eq in Hi. rewrite <- Hi in Hname.
    congruence. }
  exact Hi.
Qed.

(** The three steps of [preprocess_omi_l3], one after the other. *)
Lemma preprocess_stages (ds ds' : xr_dataset) :
  preprocess_omi_l3 ds = Some ds' ->
  exists ds2,
    xr_variables ds2
    = map (rename_var grid_names)
          (filter (fun v => negb (String.eqb (fst v) "Weight"))
                  (xr_variables ds))
    /\ (forall name, is_coord ds name = true ->
          In name (map fst (xr_variables ds)) -> name <> "Weight" ->
          is_coord ds2 name = true)
    /\ (forall name, is_coord ds2 name = true -> is_coord ds name = true)
    /\ xr_variables ds' = map (expand_var ds2 "time") (xr_variables ds2)
    /\ xr_coord_names ds' = coord_names ds2
    /\ has_dim ds "phony_dim_0" = true /\ has_dim ds "phony_dim_1" = true.
Proof.
  unfold preprocess_omi_l3, rename_dims. fold grid_names.
  destruct (forallb _ grid_names) eqn:Hall; [|discriminate].
  cbn [grid_names forallb fst snd] in Hall. rewrite !andb_true_iff in Hall.
  destruct Hall as [[[H0 _] Hlat] [[[H1 _] Hlon] _]].
  apply negb_true_iff in Hlat, Hlon.
  set (ds1 := {| xr_variables := map (rename_var grid_names) (xr_variables ds);
                 xr_coord_names := coord_names ds |}).
  assert (Hnames : map fst (xr_variables ds1) = map fst (xr_variables ds)).
  { cbn [ds1 xr_variables]. rewrite map_map. apply map_ext. reflexivity. }
  assert (Hc1 : forall name, is_coord ds name = true ->
                  In name (map fst (xr_variables ds)) ->
                  is_coord ds1 name = true).
  { intros name Hc Hv. apply listed_is_coord. cbn [ds1 xr_coord_names].
    apply coord_is_listed; assumption. }
  assert (Hb1 : forall name, is_coord ds1 name = true ->
                  is_coord ds name = true).
  { intros name Hc. unfold is_coord in Hc. apply orb_true_iff in Hc.
    destruct Hc as [Hc|Hc]; apply existsb_exists in Hc.
    - destruct Hc as (n & Hn & E). apply String.eqb_eq in E. subst n.
      cbn [ds1 xr_coord_names] in Hn. apply filter_In in Hn. apply Hn.
    - destruct Hc as (v1 & Hv1 & E). apply andb_true_iff in E.
      destruct E as [E Hi]. apply String.eqb_eq in E. subst name.
      cbn [ds1 xr_variables] in Hv1. apply in_map_iff in Hv1.
      destruct Hv1 as (v & <- & Hv).
      apply (renamed_index ds v); assumption. }
  assert (Hfilter : filter (fun v => negb (String.eqb (fst v) "Weight"))
                           (xr_variables ds1)
                    = map (rename_var grid_names)
                          (filter (fun v => negb (String.eqb (fst v) "Weight"))
                                  (xr_variables ds))).
  { cbn [ds1 xr_variables].
    apply (filter_map_fst (rename_var grid_names)
             (fun n => negb (String.eqb n "Weight"))).
    reflexivity. }
  intros H.
  assert (Hstage : exists ds2,
            xr_variables ds2
            = filter (fun v => negb (String.eqb (fst v) "Weight"))
                     (xr_variables ds1)
            /\ (forall name, is_coord ds1 name = true ->
                  In name (map fst (xr_variables ds1)) -> name <> "Weight" ->
                  is_coord ds2 name = true)
            /\ (forall name, is_coord ds2 name = true ->
                  is_coord ds1 name = true)
            /\ expand_dims "time" ds2 = Some ds').
  { destruct (has_var ds1 "Weight") eqn:Hw.
    - unfold drop_vars in H. rewrite Hw in H.
      exists {| xr_variables :=
                  filter (fun v => negb (String.eqb (fst v) "Weight"))
                         (xr_variables ds1);
                xr_coord_names :=
                  filter (fun n => negb (String.eqb n "Weight"))
                         (coord_names ds1) |}.
      split; [reflexivity|]. split; [|split; [|exact H]].
      + intros name Hc Hv Hn. apply listed_is_coord. cbn [xr_coord_names].
        apply filter_In. split; [apply coord_is_listed; assumption|].
        destruct (String.eqb_spec name "Weight"); [contradiction | reflexivity].
      + intros name Hc. unfold is_coord in Hc. apply orb_true_iff in Hc.
        destruct Hc as [Hc|Hc]; apply existsb_exists in Hc.
        * destruct Hc as (n & Hn & E). apply String.eqb_eq in E. subst n.
          cbn [xr_coord_names] in Hn. apply filter_In in Hn.
          destruct Hn as [Hn _]. apply filter_In in Hn. apply Hn.
        * destruct Hc as (v1 & Hv1 & E). apply andb_true_iff in E.
          destruct E as [E Hi]. apply String.eqb_eq in E. subst name.
          cbn [xr_variables] in Hv1. apply filter_In in Hv1.
          apply index_is_coord; [apply Hv1 | exact Hi].
    - exists ds1. split; [|split; [auto | split; [auto | exact H]]].
      symmetry. apply filter_absent. exact Hw. }
  destruct Hstage as (ds2 & Hv2 & Hc2 & Hb2 & Hexp).
  exists ds2. rewrite Hv2, Hfilter.
  split; [reflexivity|].
  split.
  { intros name Hc Hv Hn. apply Hc2; [apply Hc1; assumption | | exact Hn].
    rewrite Hnames. exact Hv. }
  split; [intros name Hc; apply Hb1, Hb2, Hc|].
  unfold expand_dims in Hexp. destruct (_ || _); [discriminate Hexp|].
  injection Hexp as <-. cbn [xr_variables xr_coord_names].
  rewrite Hv2, Hfilter. auto.
Qed.

Lemma preprocess_no_phony (ds ds' : xr_dataset) :
  preprocess_omi_l3 ds = Some ds' ->
  has_dim ds' "phony_dim_0" = false /\ has_dim ds' "phony_dim_1" = false.
Proof.
  intros H. apply preprocess_stages in H.
  destruct H as (ds2 & Hv2 & _ & _ & Hv' & _).
  assert (Hno : forall d,
            (d = "phony_dim_0" \/ d = "phony_dim_1") -> has_dim ds' d = false).
  { intros d Hd. destruct (has_dim ds' d) eqn:E; [|reflexivity]. exfalso.
    apply has_dim_spec in E. destruct E as (v' & Hin' & Hdim).
    rewrite Hv' in Hin'. apply in_map_iff in Hin'.
    destruct Hin' as (v2 & <- & Hin2).
    assert (Hdim2 : d = "time" \/ In d (map fst (snd v2))).
    { unfold expand_var in Hdim.
      destruct (String.eqb (fst v2) "time").
      - cbn [snd map fst In] in Hdim. destruct Hdim as [<-|[]]. left. reflexivity.
      - destruct (is_coord ds2 (fst v2)); [right; exact Hdim|].
        cbn [snd map fst In] in Hdim. destruct Hdim as [<-|Hdim]; auto. }
    destruct Hdim2 as [->|Hdim2]; [destruct Hd as [Hd|Hd]; discriminate Hd|].
    rewrite Hv2 in Hin2. apply in_map_iff in Hin2.
    destruct Hin2 as (v & <- & _).
    unfold rename_var in Hdim2. cbn [snd] in Hdim2.
    rewrite map_map in Hdim2. cbn [fst] in Hdim2.
    apply in_map_iff in Hdim2. destruct Hdim2 as (x & Hx & _).
    destruct (rename_by_not_phony (fst x)) as [N0 N1].
    destruct Hd; subst d; contradiction. }
  split; apply Hno; auto.
Qed.

(** X18. What [preprocess_omi_l3] returns, when it returns: the variables
    of the file in their order without [Weight]; every one of them that is
    not a coordinate has a leading [time] dimension of size 1 in front of
    its own shape, and every coordinate (other than one named [time]) has
    the shape it had; no dimension is named [phony_dim_0] or [phony_dim_1]
    any more. *)
Theorem preprocess_postcondition (ds ds' : xr_dataset) :
  preprocess_omi_l3 ds = Some ds' ->
  has_var ds' "Weight" = false
  /\ Forall2 (fun v v' =>
                fst v' = fst v
                /\ (is_coord ds' (fst v') = false ->
                    xr_shape v' = 1%nat :: xr_shape v
                    /\ exists rest, snd v' = ("time", 1%nat) :: rest)
                /\ (is_coord ds (fst v) = true -> fst v <> "time" ->
                    xr_shape v' = xr_shape v))
             (filter (fun v => negb (String.eqb (fst v) "Weight"))
                     (xr_variables ds))
             (xr_variables ds')
  /\ (forall name, is_coord ds' name = true ->
        is_coord ds name = true \/ name = "time")
  /\ has_dim ds' "phony_dim_0" = false
  /\ has_dim ds' "phony_dim_1" = false.
Proof.
  intros H. pose proof (preprocess_no_phony ds ds' H) as [N0 N1].
  apply preprocess_stages in H.
  destruct H as (ds2 & Hv2 & Hc2 & Hb2 & Hv' & Hc' & _).
  assert (Hrel : Forall2 (fun v v' =>
                fst v' = fst v
                /\ (is_coord ds' (fst v') = false ->
                    xr_shape v' = 1%nat :: xr_shape v
                    /\ exists rest, snd v' = ("time", 1%nat) :: rest)
                /\ (is_coord ds (fst v) = true -> fst v <> "time" ->
                    xr_shape v' = xr_shape v))
             (filter (fun v => negb (String.eqb (fst v) "Weight"))
                     (xr_variables ds))
             (xr_variables ds')).
  { rewrite Hv', Hv2, map_map. apply Forall2_map_r. intros v Hv.
    apply filter_In in Hv. destruct Hv as [Hv Hw].
    assert (Hin2 : In (rename_var grid_names v) (xr_variables ds2)).
    { rewrite Hv2. apply in_map. apply filter_In. auto. }
    assert (Hin' : In (expand_var ds2 "time" (rename_var grid_names v))
                      (xr_variables ds')).
    { rewrite Hv'. apply in_map. exact Hin2. }
    split; [rewrite fst_expand_var; reflexivity|]. split.
    - rewrite fst_expand_var. cbn [rename_var fst]. intros Hdata.
      revert Hin'. unfold expand_var. cbn [rename_var fst].
      destruct (String.eqb_spec (fst v) "time") as [Et|Et].
      + intros Hin'. exfalso.
        assert (Hi : is_index (fst v, [("time", 1%nat)]) = true)
          by (unfold is_index; cbn [fst snd]; rewrite Et; reflexivity).
        apply (index_is_coord ds' _ Hin') in Hi.
        cbn [fst] in Hi. congruence.
      + destruct (is_coord ds2 (fst v)) eqn:Hcoord.
        * intros _. exfalso.
          assert (Hl : In (fst v) (coord_names ds2)).
          { apply coord_is_listed; [exact Hcoord|].
            apply in_map_iff. exists (rename_var grid_names v). auto. }
          rewrite <- Hc' in Hl. apply listed_is_coord in Hl. congruence.
        * intros _. split; [|eexists; reflexivity].
          change (1%nat :: xr_shape (rename_var grid_names v)
                  = 1%nat :: xr_shape v).
          rewrite xr_shape_rename_var. reflexivity.
    - intros Hcoord Ht.
      assert (Hcoord2 : is_coord ds2 (fst v) = true).
      { apply Hc2; [exact Hcoord | apply in_map; exact Hv |].
        intros E. rewrite E in Hw. discriminate Hw. }
      unfold expand_var. cbn [rename_var fst].
      destruct (String.eqb_spec (fst v) "time") as [Et|_]; [contradiction|].
      rewrite Hcoord2. apply xr_shape_rename_var. }
  assert (Hnew : forall name, is_coord ds' name = true ->
                   is_coord ds name = true \/ name = "time").
  { intros name Hc. unfold is_coord in Hc. apply orb_true_iff in Hc.
    destruct Hc as [Hc|Hc]; apply existsb_exists in Hc.
    - destruct Hc as (n & Hn & E). apply String.eqb_eq in E. subst n.
      rewrite Hc' in Hn. apply filter_In in Hn. left. apply Hb2, Hn.
    - destruct Hc as (v' & Hin' & E). apply andb_true_iff in E.
      destruct E as [E Hi]. apply String.eqb_eq in E. subst name.
      rewrite Hv' in Hin'. apply in_map_iff in Hin'.
      destruct Hin' as (v2 & <- & Hin2).
      rewrite fst_expand_var. unfold expand_var in Hi.
      destruct (String.eqb_spec (fst v2) "time") as [Et|Et]; [right; exact Et|].
      destruct (is_coord ds2 (fst v2)) eqn:Hcoord; [left; apply Hb2, Hcoord|].
      unfold is_index in Hi. cbn [fst snd] in Hi.
      destruct (snd v2); [|discriminate Hi].
      apply String.eqb_eq in Hi. right. symmetry. exact Hi. }
  split; [|split; [exact Hrel | split; [exact Hnew | split; assumption]]].
  destruct (has_var ds' "Weight") eqn:Hw; [|reflexivity]. exfalso.
  apply has_var_spec in Hw.
  assert (Hnames : map fst (xr_variables ds')
                   = map fst (filter (fun v => negb (String.eqb (fst v) "Weight"))
                                     (xr_variables ds))).
  { rewrite Hv', Hv2, !map_map. apply map_ext. intros v.
    rewrite fst_expand_var. reflexivity. }
  rewrite Hnames in Hw. apply in_map_iff in Hw. destruct Hw as (v & E & Hv).
  apply filter_In in Hv. destruct Hv as [_ Hv]. rewrite E in Hv.
  discriminate Hv.
Qed.

Lemma preprocess_postcondition_witness :
  exists ds',
    preprocess_omi_l3 raw_granule = Some ds'
    /\ has_var ds' "Weight" = false
    /\ has_dim ds' "phony_dim_0" = false.
Proof.
  destruct (preprocess_omi_l3 raw_granule) as [ds'|] eqn:E;
    [|discriminate E].
  exists ds'. split; [reflexivity|].
  destruct (preprocess_postcondition raw_granule ds' E)
    as (Hw & _ & _ & H0 & _).
  split; [exact Hw | exact H0].
Defined.

(** X19. [preprocess_omi_l3] cannot be applied twice: on a dataset it has
    returned it raises, the grid dimensions having lost the names it looks
    for. *)
Theorem preprocess_not_idempotent (ds ds' : xr_dataset) :
  preprocess_omi_l3 ds = Some ds' -> preprocess_omi_l3 ds' = None.
Proof.
  intros H. destruct (preprocess_no_phony ds ds' H) as [N0 _].
  unfold preprocess_omi_l3, rename_dims. cbn [forallb fst snd].
  rewrite N0. reflexivity.
Qed.

Lemma preprocess_not_idempotent_witness :
  exists ds',
    preprocess_omi_l3 raw_granule = Some ds'
    /\ preprocess_omi_l3 ds' = None.
Proof.
  destruct (preprocess_omi_l3 raw_granule) as [ds'|] eqn:E;
    [|discriminate E].
  exists ds'. split; [reflexivity|].
  exact (preprocess_not_idempotent raw_granule ds' E).
Defined.

(** X20. [preprocess_omi_l3] raises on a dataset that is not on the grid of
    the reader: when [phony_dim_0] or [phony_dim_1] is not one of its
    dimensions, or [lat] or [lon] already is. *)
Theorem preprocess_rejects (ds : xr_dataset) :
  has_dim ds "phony_dim_0" = false \/ has_dim ds "phony_dim_1" = false
  \/ has_dim ds "lat" = true \/ has_dim ds "lon" = true ->
  preprocess_omi_l3 ds = None.
Proof.
  intros H. unfold preprocess_omi_l3, rename_dims. cbn [forallb fst snd].
  destruct H as [H|[H|[H|H]]]; rewrite H;
    rewrite ?andb_false_r, ?andb_false_l; cbn [negb andb];
    rewrite ?andb_false_r; reflexivity.
Qed.

Lemma preprocess_rejects_witness :
  has_dim {| xr_variables :=
               [("ColumnAmountNO2Trop", [("lat", 720%nat); ("lon", 1440%nat)])];
             xr_coord_names := [] |}
          "phony_dim_0" = false
  /\ preprocess_omi_l3
       {| xr_variables :=
            [("ColumnAmountNO2Trop", [("lat", 720%nat); ("lon", 1440%nat)])];
          xr_coord_names := [] |}
     = None.
Proof.
  split; [reflexivity|].
  apply preprocess_rejects. left. reflexivity.
Defined.

End Preprocess.

